(** * lua-gpiod: the handle lifecycle of [gpiod_lua.c]

    A shallow embedding of the Lua binding for libgpiod found in
    [src/gpiod_lua.c], and the properties of its handles (controller,
    line, line group, enumerator) that the specification states.

    The binding is a thin layer: every Lua-visible function checks its
    arguments, looks at the handle it was given, and forwards to one
    libgpiod function.  The embedding therefore has three parts:

    - the Lua side: values, the userdata objects the binding allocates
      ([LuaChip], [LuaLine], [LuaLineBulk], [LuaLineEvent], [LuaChipIter])
      in a store addressed by reference, and Lua errors;
    - the libgpiod side: the library is an external collaborator, so the
      functions of [gpiod.h] the binding calls are the constructors of
      [drv_call], answered by an arbitrary handler over an arbitrary
      driver state; every call is appended to a trace, so that "before
      any driver call" is a statement about the trace;
    - the binding itself, one definition per C function, in a state and
      error monad over the two.

    Lua's own library is a second collaborator: the conversions it
    applies to an argument before the binding sees it (a string read as
    a number, a number printed as a string, the length it reports for a
    table) are the fields of the class [lua_library], and [LuaLib] gives
    those of the reference implementation.

    Left out: the garbage collector (the [__gc] entries of the method
    tables are the same C functions as [close] and [release], run at a
    time Lua chooses) and a failing [malloc]. *)

From Stdlib Require Import ZArith Floats Uint63 Ascii String List.
From stdpp Require Import base list strings pretty.
Import ListNotations.

Local Open Scope Z_scope.

(** ** C integers and C strings *)

(** Conversion of a [lua_Integer] to C's [int] and [unsigned int]
    (32 bits, two's complement wrap-around). *)
Definition c_int (z : Z) : Z := (z + 2 ^ 31) mod 2 ^ 32 - 2 ^ 31.
Definition c_uint (z : Z) : Z := z mod 2 ^ 32.

(** [unsigned long] of the LP64 targets the binding is built for. *)
Definition ULONG_MAX : Z := 2 ^ 64 - 1.

(** A Lua string may hold zero bytes; as a [const char *] it ends at the
    first of them. *)
Fixpoint c_str (s : string) : string :=
  match s with
  | EmptyString => EmptyString
  | String c rest => if Ascii.eqb c zero then EmptyString else String c (c_str rest)
  end.

(** [isspace] in the C locale: space, and the controls 9 to 13. *)
Definition isspace (c : ascii) : bool :=
  let n := nat_of_ascii c in (n =? 32)%nat || ((9 <=? n)%nat && (n <=? 13)%nat).

Definition digit_val (c : ascii) : option Z :=
  let n := nat_of_ascii c in
  if ((48 <=? n)%nat && (n <=? 57)%nat)%bool then Some (Z.of_nat n - 48) else None.

Fixpoint skip_space (s : string) : string :=
  match s with
  | String c rest => if isspace c then skip_space rest else s
  | EmptyString => s
  end.

(** The decimal digits at the front of [s]: their value so far, how many
    were read, and what follows them. *)
Fixpoint read_digits (acc : Z) (n : nat) (s : string) : Z * nat * string :=
  match s with
  | String c rest =>
      match digit_val c with
      | Some d => read_digits (10 * acc + d) (S n) rest
      | None => (acc, n, s)
      end
  | EmptyString => (acc, n, s)
  end.

(** [strtoul(nptr, &endptr, 10)]: white space, an optional sign, then
    digits.  The result is the value ([ULONG_MAX] when it does not fit,
    negated modulo 2^64 after a minus sign) and the text [endptr] points
    at; when there is no digit nothing is converted and [endptr] is
    [nptr] itself. *)
Definition strtoul (nptr : string) : Z * string :=
  let s := skip_space nptr in
  let '(neg, body) :=
    match s with
    | String "-" rest => (true, rest)
    | String "+" rest => (false, rest)
    | _ => (false, s)
    end in
  let '(v, n, endptr) := read_digits 0 0 body in
  match n with
  | O => (0, nptr)
  | S _ =>
      if ULONG_MAX <? v then (ULONG_MAX, endptr)
      else ((if neg then (- v) mod 2 ^ 64 else v), endptr)
  end.


(** ** Floating point: [lua_Number] is a C [double] *)

(** The integer part of a finite double, toward zero. *)
Definition trunc_double (f : float) : option Z :=
  match Prim2SF f with
  | S754_zero _ => Some 0
  | S754_finite s m e =>
      let a := if 0 <=? e then Z.shiftl (Zpos m) e else Z.shiftr (Zpos m) (- e) in
      Some (if s then - a else a)
  | _ => None
  end.

(** The cast [(long)f].  It truncates; for a value that does not fit
    (and for NaN) C leaves the result undefined, and the model returns
    [LONG_MIN], the answer of the x86-64 conversion instruction. *)
Definition LONG_MIN : Z := - 2 ^ 63.
Definition double_to_long (f : float) : Z :=
  match trunc_double f with
  | Some z => if (LONG_MIN <=? z) && (z <? 2 ^ 63) then z else LONG_MIN
  | None => LONG_MIN
  end.

(** The conversion of a [long] to [double], rounding to nearest. *)
Definition long_to_double (z : Z) : float := SF2Prim (binary_normalize prec emax z 0 false).

(** [lua_Number] to [lua_Integer] as [lua_tointegerx] does it: only a
    float with an exact integer value in the 64-bit range converts. *)
Definition float_to_integer (f : float) : option Z :=
  match Prim2SF f with
  | S754_zero _ => Some 0
  | S754_finite s m e =>
      let exact := if 0 <=? e then true else Zpos m mod 2 ^ (- e) =? 0 in
      match trunc_double f with
      | Some z => if exact && (LONG_MIN <=? z) && (z <? 2 ^ 63) then Some z else None
      | None => None
      end
  | _ => None
  end.

Record timespec := { tv_sec : Z; tv_nsec : Z }.

(** ** Lua values *)

Definition addr := nat.

(** The values the binding receives and returns.  A table is used as a
    sequence only, so it is the list of its entries at 1, 2, ..., nil
    entries included. *)
#[warnings="-register-all"]
Inductive lua_value :=
  | LNil
  | LBoolean (b : bool)
  | LInteger (i : Z)
  | LNumber (n : float)
  | LString (s : string)
  | LTable (entries : list lua_value)
  | LUserdata (a : addr).

(** The argument at stack index [i] (from 1); an absent argument reads
    as nil, which is all the [luaL_check*] and [luaL_opt*] functions
    distinguish. *)
Definition arg (args : list lua_value) (i : nat) : lua_value := nth (i - 1) args LNil.

(** [lua_rawgeti]: the entry at a position, nil outside the sequence. *)
Definition lua_rawgeti (tbl : list lua_value) (n : Z) : lua_value :=
  if (1 <=? n) then nth (Z.to_nat (n - 1)) tbl LNil else LNil.

(** ** What Lua's library decides *)

(** What a string reads as when a number is wanted. *)
Inductive numeral := NInt (i : Z) | NFlt (n : float).

(** A border of a table: a position that holds an entry (or 0) and
    whose successor holds none. *)
Definition border (tbl : list lua_value) (n : nat) : Prop :=
  (n = 0%nat \/ nth (n - 1) tbl LNil <> LNil) /\ nth n tbl LNil = LNil.

(** Three conversions are made by Lua, not by [gpiod_lua.c]: a string
    given where a number is wanted is read as a numeral ([luaO_str2num],
    behind [lua_tointegerx] and [lua_tonumberx]); a float given where a
    string is wanted is printed ([lua_Number2str], behind
    [lua_tolstring]); and the length of a table is one of its borders,
    which one being Lua's choice when a nil sits between two entries
    ([luaH_getn], behind [lua_rawlen]).  They depend on the version of
    Lua, on the C library and on the locale, so like the driver they are
    parameters: what is proved of the binding holds for every Lua. *)
Class lua_library := {
  str2num : string -> option numeral;
  num2str : float -> string;
  getn : list lua_value -> nat;
  getn_border : forall tbl, border tbl (getn tbl)
}.

Section Conversions.

Context {lua : lua_library}.

Definition lua_rawlen (tbl : list lua_value) : Z := Z.of_nat (getn tbl).

(** A string converts when it is a numeral; a float, read or given,
    only with an exact integer value. *)
Definition lua_tointegerx (v : lua_value) : option Z :=
  match v with
  | LInteger i => Some i
  | LNumber n => float_to_integer n
  | LString s =>
      match str2num s with
      | Some (NInt i) => Some i
      | Some (NFlt n) => float_to_integer n
      | None => None
      end
  | _ => None
  end.

Definition lua_tonumberx (v : lua_value) : option float :=
  match v with
  | LInteger i => Some (long_to_double i)
  | LNumber n => Some n
  | LString s =>
      match str2num s with
      | Some (NInt i) => Some (long_to_double i)
      | Some (NFlt n) => Some n
      | None => None
      end
  | _ => None
  end.

Definition lua_isnumber (v : lua_value) : bool :=
  match lua_tonumberx v with
  | Some _ => true
  | None => false
  end.

(** A number converts to its text: an integer in decimal, a float as
    Lua prints it. *)
Definition lua_tolstring (v : lua_value) : option string :=
  match v with
  | LString s => Some s
  | LInteger i => Some (pretty i)
  | LNumber n => Some (num2str n)
  | _ => None
  end.

End Conversions.

(** ** Lua errors *)

Inductive fmt_arg := FStr (s : string) | FInt (i : Z).

(** [luaL_error(L, fmt, ...)] keeps its format and arguments; an error of
    [luaL_checkinteger], [luaL_checkudata] and the like keeps the stack
    index it complains about and its message, up to the name of the
    type it found there. *)
Inductive lua_error :=
  | LuaError (fmt : string) (fargs : list fmt_arg)
  | ArgError (narg : Z) (extramsg : string).

(** Error kinds of the specification, as the messages the binding
    raises for them. *)
Definition ClosedResource : lua_error := LuaError "Chip is closed" [].
Definition ReleasedResource : lua_error := LuaError "Line is released" [].
Definition DeviceNotFound (name : string) : lua_error :=
  LuaError "Failed to open GPIO chip: %s" [FStr name].
Definition RequestFailed_bulk_output : lua_error :=
  LuaError "Failed to request bulk output mode" [].
Definition IOFailure_bulk_read : lua_error :=
  LuaError "Failed to read bulk GPIO values" [].

(** ** The userdata of the binding *)

(** Pointers to libgpiod's opaque objects; [option] makes them nullable. *)
Definition gpiod_chip := nat.
Definition gpiod_line := nat.
Definition gpiod_chip_iter_t := nat.

(** [struct gpiod_line_bulk]: the lines in order; its [num_lines] is the
    length. *)
Definition gpiod_line_bulk := list gpiod_line.

Record gpiod_line_event := { event_type : Z; ts : timespec }.

Record LuaChip := { chip_chip : option gpiod_chip }.
Record LuaLine := { line_line : option gpiod_line; line_chip : option gpiod_chip }.
Record LuaLineBulk := { bulk_bulk : gpiod_line_bulk; bulk_chip : option gpiod_chip }.
Record LuaLineEvent := { event_event : gpiod_line_event }.
Record LuaChipIter := { iter_iter : option gpiod_chip_iter_t }.

Inductive udata :=
  | UChip (c : LuaChip)
  | ULine (l : LuaLine)
  | UBulk (b : LuaLineBulk)
  | UEvent (e : LuaLineEvent)
  | UIter (i : LuaChipIter).

Definition GPIOD_CHIP_MT : string := "gpiod.chip".
Definition GPIOD_LINE_MT : string := "gpiod.line".
Definition GPIOD_LINE_BULK_MT : string := "gpiod.line_bulk".
Definition GPIOD_LINE_EVENT_MT : string := "gpiod.line_event".
Definition GPIOD_CHIP_ITER_MT : string := "gpiod.chip_iter".

(** A userdata block and the metatable set on it, if any. *)
Record object := { payload : udata; metatable : option string }.

(** ** libgpiod *)

(** The functions of libgpiod the binding calls, each with the type of
    its answer.  Where the C function fills a buffer the answer carries
    what was written: the lines of a bulk, an event, or the array
    [values] as a function of the index. *)
Inductive drv_call : Type -> Type :=
  | gpiod_chip_open_by_name (name : string) : drv_call (option gpiod_chip)
  | gpiod_chip_open_by_number (num : Z) : drv_call (option gpiod_chip)
  | gpiod_chip_get_line (c : gpiod_chip) (offset : Z) : drv_call (option gpiod_line)
  | gpiod_chip_get_lines (c : gpiod_chip) (offsets : list Z) : drv_call (Z * gpiod_line_bulk)
  | gpiod_chip_find_line (c : gpiod_chip) (name : string) : drv_call (option gpiod_line)
  | gpiod_chip_get_all_lines (c : gpiod_chip) : drv_call (Z * gpiod_line_bulk)
  | gpiod_chip_name (c : gpiod_chip) : drv_call (option string)
  | gpiod_chip_label (c : gpiod_chip) : drv_call (option string)
  | gpiod_chip_num_lines (c : gpiod_chip) : drv_call Z
  | gpiod_chip_close (c : gpiod_chip) : drv_call unit
  | gpiod_line_request_input_flags (l : gpiod_line) (consumer : string) (flags : Z) : drv_call Z
  | gpiod_line_request_output_flags (l : gpiod_line) (consumer : string) (flags default_val : Z)
      : drv_call Z
  | gpiod_line_get_value (l : gpiod_line) : drv_call Z
  | gpiod_line_set_value (l : gpiod_line) (value : Z) : drv_call Z
  | gpiod_line_offset (l : gpiod_line) : drv_call Z
  | gpiod_line_name (l : gpiod_line) : drv_call (option string)
  | gpiod_line_consumer (l : gpiod_line) : drv_call (option string)
  | gpiod_line_direction (l : gpiod_line) : drv_call Z
  | gpiod_line_is_used (l : gpiod_line) : drv_call bool
  | gpiod_line_release (l : gpiod_line) : drv_call unit
  | gpiod_line_request_rising_edge_events (l : gpiod_line) (consumer : string) : drv_call Z
  | gpiod_line_request_falling_edge_events (l : gpiod_line) (consumer : string) : drv_call Z
  | gpiod_line_request_both_edges_events (l : gpiod_line) (consumer : string) : drv_call Z
  | gpiod_line_request_rising_edge_events_flags (l : gpiod_line) (consumer : string) (flags : Z)
      : drv_call Z
  | gpiod_line_request_falling_edge_events_flags (l : gpiod_line) (consumer : string) (flags : Z)
      : drv_call Z
  | gpiod_line_request_both_edges_events_flags (l : gpiod_line) (consumer : string) (flags : Z)
      : drv_call Z
  | gpiod_line_event_wait (l : gpiod_line) (timeout : option timespec) : drv_call Z
  | gpiod_line_event_read (l : gpiod_line) : drv_call (Z * gpiod_line_event)
  | gpiod_line_event_get_fd (l : gpiod_line) : drv_call Z
  | gpiod_line_active_state (l : gpiod_line) : drv_call Z
  | gpiod_line_bias (l : gpiod_line) : drv_call Z
  | gpiod_line_is_open_drain (l : gpiod_line) : drv_call bool
  | gpiod_line_is_open_source (l : gpiod_line) : drv_call bool
  | gpiod_line_update (l : gpiod_line) : drv_call Z
  | gpiod_line_request_bulk_input_flags (b : gpiod_line_bulk) (consumer : string) (flags : Z)
      : drv_call Z
  | gpiod_line_request_bulk_output_flags (b : gpiod_line_bulk) (consumer : string) (flags : Z)
      (default_vals : list Z) : drv_call Z
  | gpiod_line_get_value_bulk (b : gpiod_line_bulk) : drv_call (Z * (nat -> Z))
  | gpiod_line_set_value_bulk (b : gpiod_line_bulk) (values : list Z) : drv_call Z
  | gpiod_line_release_bulk (b : gpiod_line_bulk) : drv_call unit
  | gpiod_chip_iter_new : drv_call (option gpiod_chip_iter_t)
  | gpiod_chip_iter_next_noclose (it : gpiod_chip_iter_t) : drv_call (option gpiod_chip)
  | gpiod_chip_iter_free_noclose (it : gpiod_chip_iter_t) : drv_call unit.

(** A driver: how each call is answered, and what it does to the state
    [D] of the library and the kernel behind it. *)
Definition driver (D : Type) : Type := forall R, drv_call R -> D -> R * D.

(** One entry of the trace of calls. *)
Definition call_record : Type := { R : Type & drv_call R }.
Definition logged {R} (c : drv_call R) : call_record := existT R c.

(** The enumeration constants of [gpiod.h] that the binding switches
    on; the header is not part of the binding, so they are parameters. *)
Record gpiod_h := {
  GPIOD_LINE_DIRECTION_INPUT : Z;
  GPIOD_LINE_DIRECTION_OUTPUT : Z;
  GPIOD_LINE_ACTIVE_STATE_HIGH : Z;
  GPIOD_LINE_ACTIVE_STATE_LOW : Z;
  GPIOD_LINE_BIAS_AS_IS : Z;
  GPIOD_LINE_BIAS_DISABLE : Z;
  GPIOD_LINE_BIAS_PULL_UP : Z;
  GPIOD_LINE_BIAS_PULL_DOWN : Z;
  GPIOD_LINE_EVENT_RISING_EDGE : Z;
  GPIOD_LINE_EVENT_FALLING_EDGE : Z
}.

(** ** The state and error monad of a C function of the binding *)

(** Everything a call can change: the userdata store of the Lua state,
    the state of the driver, and the calls made to it so far. *)
Record world (D : Type) := World {
  heap : list object;
  dstate : D;
  trace : list call_record
}.
Arguments World {D} _ _ _.
Arguments heap {D} _.
Arguments dstate {D} _.
Arguments trace {D} _.

Inductive result (A : Type) :=
  | Ok (a : A)
  | Raise (e : lua_error).
Arguments Ok {A} _.
Arguments Raise {A} _.

(** A raised error ends the C function (a [longjmp]); what was done
    before it stays done, so the world is returned in both cases. *)
Definition Lua (D A : Type) : Type := world D -> result A * world D.

Definition ret {D A} (a : A) : Lua D A := fun w => (Ok a, w).

Definition bind {D A B} (m : Lua D A) (k : A -> Lua D B) : Lua D B :=
  fun w =>
    match m w with
    | (Ok a, w') => k a w'
    | (Raise e, w') => (Raise e, w')
    end.

Notation "'let*' x ':=' m 'in' k" := (bind m (fun x => k))
  (at level 10, x pattern, m at level 100, k at level 200).
Notation "m ;; k" := (bind m (fun _ => k))
  (at level 100, right associativity).

Definition luaL_error {D A} (fmt : string) (fargs : list fmt_arg) : Lua D A :=
  fun w => (Raise (LuaError fmt fargs), w).

Definition luaL_argerror {D A} (narg : Z) (expected : string) : Lua D A :=
  fun w => (Raise (ArgError narg expected), w).

(** A loop [for (i = 0; i < n; i++)] that collects one result per round. *)
Fixpoint for_each {D A} (body : nat -> Lua D A) (i : nat) (n : nat) : Lua D (list A) :=
  match n with
  | O => ret []
  | S n' =>
      let* x := body i in
      let* xs := for_each body (S i) n' in
      ret (x :: xs)
  end.

(** ** The binding *)

Section Binding.

Context {D : Type} {lua : lua_library}.
Variable drv : driver D.
Variable K : gpiod_h.

(** A call into libgpiod: answered by the driver, and recorded. *)
Definition call {R} (c : drv_call R) : Lua D R :=
  fun w =>
    let '(r, d) := drv R c (dstate w) in
    (Ok r, World (heap w) d (trace w ++ [logged c])).

(** [lua_newuserdata]: a fresh block, with no metatable yet.  [init]
    stands for the fields as the C function first assigns them. *)
Definition lua_newuserdata (init : udata) : Lua D addr :=
  fun w =>
    (Ok (length (heap w)),
     World (heap w ++ [{| payload := init; metatable := None |}]) (dstate w) (trace w)).

(** An assignment through the pointer to a userdata block. *)
Definition store (a : addr) (u : udata) : Lua D unit :=
  fun w =>
    match heap w !! a with
    | Some o =>
        (Ok tt, World (<[a := {| payload := u; metatable := metatable o |}]> (heap w))
                      (dstate w) (trace w))
    | None => (Ok tt, w)
    end.

(** [luaL_getmetatable(L, tname); lua_setmetatable(L, -2)] on the block
    just allocated. *)
Definition luaL_setmetatable (a : addr) (tname : string) : Lua D unit :=
  fun w =>
    match heap w !! a with
    | Some o =>
        (Ok tt, World (<[a := {| payload := payload o; metatable := Some tname |}]> (heap w))
                      (dstate w) (trace w))
    | None => (Ok tt, w)
    end.

(** [luaL_checkudata]: the argument must be a userdata whose metatable
    is the one registered under [tname]. *)
Definition luaL_checkudata (args : list lua_value) (i : nat) (tname : string)
  : Lua D (addr * udata) :=
  fun w =>
    match arg args i with
    | LUserdata a =>
        match heap w !! a with
        | Some o =>
            if decide (metatable o = Some tname) then (Ok (a, payload o), w)
            else (Raise (ArgError (Z.of_nat i) tname), w)
        | None => (Raise (ArgError (Z.of_nat i) tname), w)
        end
    | _ => (Raise (ArgError (Z.of_nat i) tname), w)
    end.

(** [luaL_checkudata(L, 1, GPIOD_CHIP_MT)] cast to a pointer to [LuaChip],
    and so on: the address of the block and what it holds. *)
Definition check_chip (args : list lua_value) : Lua D (addr * LuaChip) :=
  let* (a, u) := luaL_checkudata args 1 GPIOD_CHIP_MT in
  match u with UChip c => ret (a, c) | _ => luaL_argerror 1 GPIOD_CHIP_MT end.

Definition check_line (args : list lua_value) : Lua D (addr * LuaLine) :=
  let* (a, u) := luaL_checkudata args 1 GPIOD_LINE_MT in
  match u with ULine l => ret (a, l) | _ => luaL_argerror 1 GPIOD_LINE_MT end.

Definition check_bulk (args : list lua_value) : Lua D (addr * LuaLineBulk) :=
  let* (a, u) := luaL_checkudata args 1 GPIOD_LINE_BULK_MT in
  match u with UBulk b => ret (a, b) | _ => luaL_argerror 1 GPIOD_LINE_BULK_MT end.

Definition check_event (args : list lua_value) : Lua D (addr * LuaLineEvent) :=
  let* (a, u) := luaL_checkudata args 1 GPIOD_LINE_EVENT_MT in
  match u with UEvent e => ret (a, e) | _ => luaL_argerror 1 GPIOD_LINE_EVENT_MT end.

Definition check_iter (args : list lua_value) : Lua D (addr * LuaChipIter) :=
  let* (a, u) := luaL_checkudata args 1 GPIOD_CHIP_ITER_MT in
  match u with UIter i => ret (a, i) | _ => luaL_argerror 1 GPIOD_CHIP_ITER_MT end.

(** [luaL_checkstring]: a string, or a number as its text; the C code
    reads the result up to its first zero byte. *)
Definition luaL_checkstring (args : list lua_value) (i : nat) : Lua D string :=
  match lua_tolstring (arg args i) with
  | Some s => ret (c_str s)
  | None => luaL_argerror (Z.of_nat i) "string expected"
  end.

(** [interror] of [lauxlib.c]: what [luaL_checkinteger] raises for a
    value that does not convert to an integer. *)
Definition interror (idx : Z) (v : lua_value) : Lua D Z :=
  if lua_isnumber v then luaL_argerror idx "number has no integer representation"
  else luaL_argerror idx "number expected".

(** [luaL_checkinteger] on a value of the stack, [idx] being the index
    the C code names it by. *)
Definition check_integer (idx : Z) (v : lua_value) : Lua D Z :=
  match lua_tointegerx v with
  | Some z => ret z
  | None => interror idx v
  end.

Definition luaL_checkinteger (args : list lua_value) (i : nat) : Lua D Z :=
  check_integer (Z.of_nat i) (arg args i).

Definition luaL_optinteger (args : list lua_value) (i : nat) (def : Z) : Lua D Z :=
  match arg args i with
  | LNil => ret def
  | _ => luaL_checkinteger args i
  end.

Definition luaL_optnumber (args : list lua_value) (i : nat) (def : float) : Lua D float :=
  match arg args i with
  | LNil => ret def
  | v =>
      match lua_tonumberx v with
      | Some n => ret n
      | None => luaL_argerror (Z.of_nat i) "number expected"
      end
  end.

(** [luaL_checktype(L, i, LUA_TTABLE)]; the entries are what
    [lua_rawgeti(L, i, _)] reads afterwards. *)
Definition check_table (args : list lua_value) (i : nat) : Lua D (list lua_value) :=
  match arg args i with
  | LTable entries => ret entries
  | _ => luaL_argerror (Z.of_nat i) "table expected"
  end.

(** [lua_pushstring] pushes nil for a null pointer. *)
Definition lua_pushstring (s : option string) : lua_value :=
  match s with
  | Some s => LString s
  | None => LNil
  end.

(** The guards [if (!chip->chip) return luaL_error(L, "Chip is closed")]
    and [if (!line->line) return luaL_error(L, "Line is released")]. *)
Definition chip_or_closed {A} (chip : LuaChip) (k : gpiod_chip -> Lua D A) : Lua D A :=
  match chip_chip chip with
  | None => luaL_error "Chip is closed" []
  | Some c => k c
  end.

Definition line_or_released {A} (line : LuaLine) (k : gpiod_line -> Lua D A) : Lua D A :=
  match line_line line with
  | None => luaL_error "Line is released" []
  | Some l => k l
  end.

(** *** Chip functions *)

(** [gpiod.chip_open(name_or_number)] *)
Definition chip_open (args : list lua_value) : Lua D (list lua_value) :=
  let* name := luaL_checkstring args 1 in
  let* chip := lua_newuserdata (UChip {| chip_chip := None |}) in
  let* by_name := call (gpiod_chip_open_by_name name) in
  store chip (UChip {| chip_chip := by_name |}) ;;
  let* opened :=
    match by_name with
    | Some _ => ret by_name
    | None =>
        let '(num, endptr) := strtoul name in
        match endptr with
        | EmptyString =>
            let* by_number := call (gpiod_chip_open_by_number (c_uint num)) in
            store chip (UChip {| chip_chip := by_number |}) ;;
            ret by_number
        | String _ _ => ret None
        end
    end in
  match opened with
  | None => luaL_error "Failed to open GPIO chip: %s" [FStr name]
  | Some _ => luaL_setmetatable chip GPIOD_CHIP_MT ;; ret [LUserdata chip]
  end.

(** [chip:get_line(offset)] *)
Definition chip_get_line (args : list lua_value) : Lua D (list lua_value) :=
  let* (_, chip) := check_chip args in
  let* offset := luaL_checkinteger args 2 in
  let offset := c_uint offset in
  chip_or_closed chip (fun c =>
    let* line := lua_newuserdata (ULine {| line_line := None; line_chip := None |}) in
    let* l := call (gpiod_chip_get_line c offset) in
    store line (ULine {| line_line := l; line_chip := Some c |}) ;;
    match l with
    | None => luaL_error "Failed to get GPIO line: %d" [FInt (c_int offset)]
    | Some _ => luaL_setmetatable line GPIOD_LINE_MT ;; ret [LUserdata line]
    end).

(** [chip:get_lines(offsets_table)] *)
Definition chip_get_lines (args : list lua_value) : Lua D (list lua_value) :=
  let* (_, chip) := check_chip args in
  let* tbl := check_table args 2 in
  chip_or_closed chip (fun c =>
    let num_lines := c_int (lua_rawlen tbl) in
    let* offsets :=
      for_each (fun i =>
        let* v := check_integer (-1) (lua_rawgeti tbl (Z.of_nat i + 1)) in
        ret (c_uint v)) 0 (Z.to_nat num_lines) in
    let* bulk := lua_newuserdata (UBulk {| bulk_bulk := []; bulk_chip := Some c |}) in
    let* (r, lines) := call (gpiod_chip_get_lines c offsets) in
    store bulk (UBulk {| bulk_bulk := lines; bulk_chip := Some c |}) ;;
    if r <? 0 then luaL_error "Failed to get GPIO line bulk" []
    else luaL_setmetatable bulk GPIOD_LINE_BULK_MT ;; ret [LUserdata bulk]).

(** [chip:find_line(name)] *)
Definition chip_find_line (args : list lua_value) : Lua D (list lua_value) :=
  let* (_, chip) := check_chip args in
  let* name := luaL_checkstring args 2 in
  chip_or_closed chip (fun c =>
    let* line := call (gpiod_chip_find_line c name) in
    match line with
    | None => ret [LNil]
    | Some l =>
        let* lua_line := lua_newuserdata (ULine {| line_line := Some l; line_chip := Some c |}) in
        luaL_setmetatable lua_line GPIOD_LINE_MT ;;
        ret [LUserdata lua_line]
    end).

(** [chip:get_all_lines()] *)
Definition chip_get_all_lines (args : list lua_value) : Lua D (list lua_value) :=
  let* (_, chip) := check_chip args in
  chip_or_closed chip (fun c =>
    let* bulk := lua_newuserdata (UBulk {| bulk_bulk := []; bulk_chip := Some c |}) in
    let* (r, lines) := call (gpiod_chip_get_all_lines c) in
    store bulk (UBulk {| bulk_bulk := lines; bulk_chip := Some c |}) ;;
    if r <? 0 then luaL_error "Failed to get all GPIO lines" []
    else luaL_setmetatable bulk GPIOD_LINE_BULK_MT ;; ret [LUserdata bulk]).

(** [chip:name()] *)
Definition chip_name (args : list lua_value) : Lua D (list lua_value) :=
  let* (_, chip) := check_chip args in
  chip_or_closed chip (fun c =>
    let* s := call (gpiod_chip_name c) in
    ret [lua_pushstring s]).

(** [chip:label()] *)
Definition chip_label (args : list lua_value) : Lua D (list lua_value) :=
  let* (_, chip) := check_chip args in
  chip_or_closed chip (fun c =>
    let* s := call (gpiod_chip_label c) in
    ret [lua_pushstring s]).

(** [chip:num_lines()] *)
Definition chip_num_lines (args : list lua_value) : Lua D (list lua_value) :=
  let* (_, chip) := check_chip args in
  chip_or_closed chip (fun c =>
    let* n := call (gpiod_chip_num_lines c) in
    ret [LInteger n]).

(** [chip:close()] *)
Definition chip_close (args : list lua_value) : Lua D (list lua_value) :=
  let* (a, chip) := check_chip args in
  match chip_chip chip with
  | Some c =>
      call (gpiod_chip_close c) ;;
      store a (UChip {| chip_chip := None |}) ;;
      ret []
  | None => ret []
  end.

(** *** Line functions *)

(** [line:request_input(consumer, [flags])] *)
Definition line_request_input (args : list lua_value) : Lua D (list lua_value) :=
  let* (_, line) := check_line args in
  let* consumer := luaL_checkstring args 2 in
  let* flags := luaL_optinteger args 3 0 in
  let flags := c_int flags in
  line_or_released line (fun l =>
    let* r := call (gpiod_line_request_input_flags l consumer flags) in
    if r <? 0 then luaL_error "Failed to request input mode" []
    else ret [LBoolean true]).

(** [line:request_output(consumer, default_val, [flags])] *)
Definition line_request_output (args : list lua_value) : Lua D (list lua_value) :=
  let* (_, line) := check_line args in
  let* consumer := luaL_checkstring args 2 in
  let* default_val := luaL_checkinteger args 3 in
  let default_val := c_int default_val in
  let* flags := luaL_optinteger args 4 0 in
  let flags := c_int flags in
  line_or_released line (fun l =>
    let* r := call (gpiod_line_request_output_flags l consumer flags default_val) in
    if r <? 0 then luaL_error "Failed to request output mode" []
    else ret [LBoolean true]).

(** [line:get_value()] *)
Definition line_get_value (args : list lua_value) : Lua D (list lua_value) :=
  let* (_, line) := check_line args in
  line_or_released line (fun l =>
    let* value := call (gpiod_line_get_value l) in
    if value <? 0 then luaL_error "Failed to read GPIO value" []
    else ret [LInteger value]).

(** [line:set_value(value)] *)
Definition line_set_value (args : list lua_value) : Lua D (list lua_value) :=
  let* (_, line) := check_line args in
  let* value := luaL_checkinteger args 2 in
  let value := c_int value in
  line_or_released line (fun l =>
    let* r := call (gpiod_line_set_value l value) in
    if r <? 0 then luaL_error "Failed to set GPIO value" []
    else ret [LBoolean true]).

(** [line:offset()] *)
Definition line_offset (args : list lua_value) : Lua D (list lua_value) :=
  let* (_, line) := check_line args in
  line_or_released line (fun l =>
    let* n := call (gpiod_line_offset l) in
    ret [LInteger n]).

(** [line:name()] *)
Definition line_name (args : list lua_value) : Lua D (list lua_value) :=
  let* (_, line) := check_line args in
  line_or_released line (fun l =>
    let* name := call (gpiod_line_name l) in
    match name with
    | Some s => ret [LString s]
    | None => ret [LNil]
    end).

(** [line:consumer()] *)
Definition line_consumer (args : list lua_value) : Lua D (list lua_value) :=
  let* (_, line) := check_line args in
  line_or_released line (fun l =>
    let* consumer := call (gpiod_line_consumer l) in
    match consumer with
    | Some s => ret [LString s]
    | None => ret [LNil]
    end).

(** [line:direction()] *)
Definition line_direction (args : list lua_value) : Lua D (list lua_value) :=
  let* (_, line) := check_line args in
  line_or_released line (fun l =>
    let* direction := call (gpiod_line_direction l) in
    if direction =? GPIOD_LINE_DIRECTION_INPUT K then ret [LString "input"]
    else if direction =? GPIOD_LINE_DIRECTION_OUTPUT K then ret [LString "output"]
    else ret [LString "unknown"]).

(** [line:is_used()] *)
Definition line_is_used (args : list lua_value) : Lua D (list lua_value) :=
  let* (_, line) := check_line args in
  line_or_released line (fun l =>
    let* b := call (gpiod_line_is_used l) in
    ret [LBoolean b]).

(** [line:release()] *)
Definition line_release (args : list lua_value) : Lua D (list lua_value) :=
  let* (a, line) := check_line args in
  match line_line line with
  | Some l =>
      call (gpiod_line_release l) ;;
      store a (ULine {| line_line := None; line_chip := line_chip line |}) ;;
      ret []
  | None => ret []
  end.

(** [line:request_rising_edge_events(consumer)] *)
Definition line_request_rising_edge_events (args : list lua_value) : Lua D (list lua_value) :=
  let* (_, line) := check_line args in
  let* consumer := luaL_checkstring args 2 in
  line_or_released line (fun l =>
    let* r := call (gpiod_line_request_rising_edge_events l consumer) in
    if r <? 0 then luaL_error "Failed to request rising edge events" []
    else ret [LBoolean true]).

(** [line:request_falling_edge_events(consumer)] *)
Definition line_request_falling_edge_events (args : list lua_value) : Lua D (list lua_value) :=
  let* (_, line) := check_line args in
  let* consumer := luaL_checkstring args 2 in
  line_or_released line (fun l =>
    let* r := call (gpiod_line_request_falling_edge_events l consumer) in
    if r <? 0 then luaL_error "Failed to request falling edge events" []
    else ret [LBoolean true]).

(** [line:request_both_edges_events(consumer)] *)
Definition line_request_both_edges_events (args : list lua_value) : Lua D (list lua_value) :=
  let* (_, line) := check_line args in
  let* consumer := luaL_checkstring args 2 in
  line_or_released line (fun l =>
    let* r := call (gpiod_line_request_both_edges_events l consumer) in
    if r <? 0 then luaL_error "Failed to request both edges events" []
    else ret [LBoolean true]).

(** [line:request_rising_edge_events_flags(consumer, flags)] *)
Definition line_request_rising_edge_events_flags (args : list lua_value)
  : Lua D (list lua_value) :=
  let* (_, line) := check_line args in
  let* consumer := luaL_checkstring args 2 in
  let* flags := luaL_checkinteger args 3 in
  let flags := c_int flags in
  line_or_released line (fun l =>
    let* r := call (gpiod_line_request_rising_edge_events_flags l consumer flags) in
    if r <? 0 then luaL_error "Failed to request rising edge events" []
    else ret [LBoolean true]).

(** [line:request_falling_edge_events_flags(consumer, flags)] *)
Definition line_request_falling_edge_events_flags (args : list lua_value)
  : Lua D (list lua_value) :=
  let* (_, line) := check_line args in
  let* consumer := luaL_checkstring args 2 in
  let* flags := luaL_checkinteger args 3 in
  let flags := c_int flags in
  line_or_released line (fun l =>
    let* r := call (gpiod_line_request_falling_edge_events_flags l consumer flags) in
    if r <? 0 then luaL_error "Failed to request falling edge events" []
    else ret [LBoolean true]).

(** [line:request_both_edges_events_flags(consumer, flags)] *)
Definition line_request_both_edges_events_flags (args : list lua_value)
  : Lua D (list lua_value) :=
  let* (_, line) := check_line args in
  let* consumer := luaL_checkstring args 2 in
  let* flags := luaL_checkinteger args 3 in
  let flags := c_int flags in
  line_or_released line (fun l =>
    let* r := call (gpiod_line_request_both_edges_events_flags l consumer flags) in
    if r <? 0 then luaL_error "Failed to request both edges events" []
    else ret [LBoolean true]).

(** The [struct timespec] that [line_event_wait] fills from its
    timeout in seconds. *)
Definition timespec_of_seconds (timeout : float) : timespec :=
  let sec := double_to_long timeout in
  {| tv_sec := sec;
     tv_nsec := double_to_long ((timeout - long_to_double sec) * 1000000000)%float |}.

(** [line:event_wait(timeout_sec)] *)
Definition line_event_wait (args : list lua_value) : Lua D (list lua_value) :=
  let* (_, line) := check_line args in
  let* timeout := luaL_optnumber args 2 (-1)%float in
  line_or_released line (fun l =>
    let timeout_ptr :=
      if (0 <=? timeout)%float then Some (timespec_of_seconds timeout) else None in
    let* r := call (gpiod_line_event_wait l timeout_ptr) in
    if r <? 0 then luaL_error "Failed to wait for event" []
    else ret [LBoolean (0 <? r)]).

(** [line:event_read()] *)
Definition line_event_read (args : list lua_value) : Lua D (list lua_value) :=
  let* (_, line) := check_line args in
  line_or_released line (fun l =>
    let* event :=
      lua_newuserdata
        (UEvent {| event_event := {| event_type := 0; ts := {| tv_sec := 0; tv_nsec := 0 |} |} |}) in
    let* (r, ev) := call (gpiod_line_event_read l) in
    store event (UEvent {| event_event := ev |}) ;;
    if r <? 0 then luaL_error "Failed to read event" []
    else luaL_setmetatable event GPIOD_LINE_EVENT_MT ;; ret [LUserdata event]).

(** [line:event_get_fd()] *)
Definition line_event_get_fd (args : list lua_value) : Lua D (list lua_value) :=
  let* (_, line) := check_line args in
  line_or_released line (fun l =>
    let* fd := call (gpiod_line_event_get_fd l) in
    if fd <? 0 then luaL_error "Failed to get event file descriptor" []
    else ret [LInteger fd]).

(** [line:active_state()] *)
Definition line_active_state (args : list lua_value) : Lua D (list lua_value) :=
  let* (_, line) := check_line args in
  line_or_released line (fun l =>
    let* state := call (gpiod_line_active_state l) in
    if state =? GPIOD_LINE_ACTIVE_STATE_HIGH K then ret [LString "high"]
    else if state =? GPIOD_LINE_ACTIVE_STATE_LOW K then ret [LString "low"]
    else ret [LString "unknown"]).

(** [line:bias()] *)
Definition line_bias (args : list lua_value) : Lua D (list lua_value) :=
  let* (_, line) := check_line args in
  line_or_released line (fun l =>
    let* bias := call (gpiod_line_bias l) in
    if bias =? GPIOD_LINE_BIAS_AS_IS K then ret [LString "as_is"]
    else if bias =? GPIOD_LINE_BIAS_DISABLE K then ret [LString "disable"]
    else if bias =? GPIOD_LINE_BIAS_PULL_UP K then ret [LString "pull_up"]
    else if bias =? GPIOD_LINE_BIAS_PULL_DOWN K then ret [LString "pull_down"]
    else ret [LString "unknown"]).

(** [line:is_open_drain()] *)
Definition line_is_open_drain (args : list lua_value) : Lua D (list lua_value) :=
  let* (_, line) := check_line args in
  line_or_released line (fun l =>
    let* b := call (gpiod_line_is_open_drain l) in
    ret [LBoolean b]).

(** [line:is_open_source()] *)
Definition line_is_open_source (args : list lua_value) : Lua D (list lua_value) :=
  let* (_, line) := check_line args in
  line_or_released line (fun l =>
    let* b := call (gpiod_line_is_open_source l) in
    ret [LBoolean b]).

(** [line:update()] *)
Definition line_update (args : list lua_value) : Lua D (list lua_value) :=
  let* (_, line) := check_line args in
  line_or_released line (fun l =>
    let* r := call (gpiod_line_update l) in
    if r <? 0 then luaL_error "Failed to update line status" []
    else ret [LBoolean true]).

(** *** Line bulk functions *)

(** The inline accessors of [gpiod.h] on a bulk. *)
Definition gpiod_line_bulk_num_lines (bulk : gpiod_line_bulk) : Z := Z.of_nat (length bulk).
Definition gpiod_line_bulk_get_line (bulk : gpiod_line_bulk) (index : Z) : option gpiod_line :=
  bulk !! Z.to_nat index.

(** [bulk:num_lines()] *)
Definition bulk_num_lines (args : list lua_value) : Lua D (list lua_value) :=
  let* (_, bulk) := check_bulk args in
  ret [LInteger (gpiod_line_bulk_num_lines (bulk_bulk bulk))].

(** [bulk:get_line(index)] *)
Definition bulk_get_line (args : list lua_value) : Lua D (list lua_value) :=
  let* (_, bulk) := check_bulk args in
  let* index := luaL_checkinteger args 2 in
  let index := c_uint index in
  if gpiod_line_bulk_num_lines (bulk_bulk bulk) <=? index
  then luaL_error "Index out of range" []
  else
    let* line :=
      lua_newuserdata (ULine {| line_line := gpiod_line_bulk_get_line (bulk_bulk bulk) index;
                                line_chip := bulk_chip bulk |}) in
    luaL_setmetatable line GPIOD_LINE_MT ;;
    ret [LUserdata line].

(** [bulk:request_input(consumer, [flags])] *)
Definition bulk_request_input (args : list lua_value) : Lua D (list lua_value) :=
  let* (_, bulk) := check_bulk args in
  let* consumer := luaL_checkstring args 2 in
  let* flags := luaL_optinteger args 3 0 in
  let flags := c_int flags in
  let* r := call (gpiod_line_request_bulk_input_flags (bulk_bulk bulk) consumer flags) in
  if r <? 0 then luaL_error "Failed to request bulk input mode" []
  else ret [LBoolean true].

(** [bulk:request_output(consumer, default_vals, [flags])] *)
Definition bulk_request_output (args : list lua_value) : Lua D (list lua_value) :=
  let* (_, bulk) := check_bulk args in
  let* consumer := luaL_checkstring args 2 in
  let* tbl := check_table args 3 in
  let* flags := luaL_optinteger args 4 0 in
  let flags := c_int flags in
  let num_lines := gpiod_line_bulk_num_lines (bulk_bulk bulk) in
  let* values :=
    for_each (fun i =>
      let* v := check_integer (-1) (lua_rawgeti tbl (Z.of_nat i + 1)) in
      ret (c_int v)) 0 (Z.to_nat num_lines) in
  let* r := call (gpiod_line_request_bulk_output_flags (bulk_bulk bulk) consumer flags values) in
  if r <? 0 then luaL_error "Failed to request bulk output mode" []
  else ret [LBoolean true].

(** [bulk:get_values()] *)
Definition bulk_get_values (args : list lua_value) : Lua D (list lua_value) :=
  let* (_, bulk) := check_bulk args in
  let num_lines := gpiod_line_bulk_num_lines (bulk_bulk bulk) in
  let* (r, values) := call (gpiod_line_get_value_bulk (bulk_bulk bulk)) in
  if r <? 0 then luaL_error "Failed to read bulk GPIO values" []
  else
    let* entries :=
      for_each (fun i => ret (LInteger (values i))) 0 (Z.to_nat num_lines) in
    ret [LTable entries].

(** [bulk:set_values(values_table)] *)
Definition bulk_set_values (args : list lua_value) : Lua D (list lua_value) :=
  let* (_, bulk) := check_bulk args in
  let* tbl := check_table args 2 in
  let num_lines := gpiod_line_bulk_num_lines (bulk_bulk bulk) in
  let* values :=
    for_each (fun i =>
      let* v := check_integer (-1) (lua_rawgeti tbl (Z.of_nat i + 1)) in
      ret (c_int v)) 0 (Z.to_nat num_lines) in
  let* r := call (gpiod_line_set_value_bulk (bulk_bulk bulk) values) in
  if r <? 0 then luaL_error "Failed to set bulk GPIO values" []
  else ret [LBoolean true].

(** [bulk:release()] *)
Definition bulk_release (args : list lua_value) : Lua D (list lua_value) :=
  let* (_, bulk) := check_bulk args in
  call (gpiod_line_release_bulk (bulk_bulk bulk)) ;;
  ret [].

(** *** Line event functions *)

(** [event:event_type()] *)
Definition event_event_type (args : list lua_value) : Lua D (list lua_value) :=
  let* (_, event) := check_event args in
  let type := event_type (event_event event) in
  if type =? GPIOD_LINE_EVENT_RISING_EDGE K then ret [LString "rising_edge"]
  else if type =? GPIOD_LINE_EVENT_FALLING_EDGE K then ret [LString "falling_edge"]
  else ret [LString "unknown"].

(** [event:timestamp()] *)
Definition event_timestamp (args : list lua_value) : Lua D (list lua_value) :=
  let* (_, event) := check_event args in
  let t := ts (event_event event) in
  ret [LNumber (long_to_double (tv_sec t) + long_to_double (tv_nsec t) / 1000000000)%float].

(** *** Chip iterator functions *)

(** [gpiod.chip_iter()] *)
Definition gpiod_chip_iter (args : list lua_value) : Lua D (list lua_value) :=
  let* iter := lua_newuserdata (UIter {| iter_iter := None |}) in
  let* it := call gpiod_chip_iter_new in
  store iter (UIter {| iter_iter := it |}) ;;
  match it with
  | None => ret [LNil]
  | Some _ => luaL_setmetatable iter GPIOD_CHIP_ITER_MT ;; ret [LUserdata iter]
  end.

(** [iter:next()] *)
Definition chip_iter_next (args : list lua_value) : Lua D (list lua_value) :=
  let* (_, iter) := check_iter args in
  match iter_iter iter with
  | None => ret [LNil]
  | Some it =>
      let* chip := call (gpiod_chip_iter_next_noclose it) in
      match chip with
      | None => ret [LNil]
      | Some c =>
          let* lua_chip := lua_newuserdata (UChip {| chip_chip := Some c |}) in
          luaL_setmetatable lua_chip GPIOD_CHIP_MT ;;
          ret [LUserdata lua_chip]
      end
  end.

(** [iter:next_noclose()] *)
Definition chip_iter_next_noclose (args : list lua_value) : Lua D (list lua_value) :=
  let* (_, iter) := check_iter args in
  match iter_iter iter with
  | None => ret [LNil]
  | Some it =>
      let* chip := call (gpiod_chip_iter_next_noclose it) in
      match chip with
      | None => ret [LNil]
      | Some c =>
          let* lua_chip := lua_newuserdata (UChip {| chip_chip := Some c |}) in
          luaL_setmetatable lua_chip GPIOD_CHIP_MT ;;
          ret [LUserdata lua_chip]
      end
  end.

(** [iter:close()] *)
Definition chip_iter_close (args : list lua_value) : Lua D (list lua_value) :=
  let* (a, iter) := check_iter args in
  match iter_iter iter with
  | Some it =>
      call (gpiod_chip_iter_free_noclose it) ;;
      store a (UIter {| iter_iter := None |}) ;;
      ret []
  | None => ret []
  end.

(** *** The method tables *)

(** A method call with arguments of the types the C function checks
    for; an optional argument that is left out is passed as nil. *)
Inductive chip_method :=
  | Chip_get_line (offset : Z)
  | Chip_get_lines (offsets : list lua_value)
  | Chip_find_line (name : string)
  | Chip_get_all_lines
  | Chip_name
  | Chip_label
  | Chip_num_lines
  | Chip_close.

Inductive line_method :=
  | Line_request_input (consumer : string) (flags : option Z)
  | Line_request_output (consumer : string) (default_val : Z) (flags : option Z)
  | Line_request_rising_edge_events (consumer : string)
  | Line_request_falling_edge_events (consumer : string)
  | Line_request_both_edges_events (consumer : string)
  | Line_request_rising_edge_events_flags (consumer : string) (flags : Z)
  | Line_request_falling_edge_events_flags (consumer : string) (flags : Z)
  | Line_request_both_edges_events_flags (consumer : string) (flags : Z)
  | Line_event_wait (timeout : option float)
  | Line_event_read
  | Line_event_get_fd
  | Line_get_value
  | Line_set_value (value : Z)
  | Line_offset
  | Line_name
  | Line_consumer
  | Line_direction
  | Line_active_state
  | Line_bias
  | Line_is_used
  | Line_is_open_drain
  | Line_is_open_source
  | Line_update
  | Line_release.

Definition opt_integer (o : option Z) : lua_value :=
  match o with
  | Some z => LInteger z
  | None => LNil
  end.

Definition opt_number (o : option float) : lua_value :=
  match o with
  | Some n => LNumber n
  | None => LNil
  end.

(** [chip_methods]: the method [m] called on the userdata at [self]. *)
Definition chip_methods (m : chip_method) (self : addr) : Lua D (list lua_value) :=
  match m with
  | Chip_get_line offset => chip_get_line [LUserdata self; LInteger offset]
  | Chip_get_lines offsets => chip_get_lines [LUserdata self; LTable offsets]
  | Chip_find_line name => chip_find_line [LUserdata self; LString name]
  | Chip_get_all_lines => chip_get_all_lines [LUserdata self]
  | Chip_name => chip_name [LUserdata self]
  | Chip_label => chip_label [LUserdata self]
  | Chip_num_lines => chip_num_lines [LUserdata self]
  | Chip_close => chip_close [LUserdata self]
  end.

(** [line_methods] *)
Definition line_methods (m : line_method) (self : addr) : Lua D (list lua_value) :=
  match m with
  | Line_request_input consumer flags =>
      line_request_input [LUserdata self; LString consumer; opt_integer flags]
  | Line_request_output consumer default_val flags =>
      line_request_output
        [LUserdata self; LString consumer; LInteger default_val; opt_integer flags]
  | Line_request_rising_edge_events consumer =>
      line_request_rising_edge_events [LUserdata self; LString consumer]
  | Line_request_falling_edge_events consumer =>
      line_request_falling_edge_events [LUserdata self; LString consumer]
  | Line_request_both_edges_events consumer =>
      line_request_both_edges_events [LUserdata self; LString consumer]
  | Line_request_rising_edge_events_flags consumer flags =>
      line_request_rising_edge_events_flags [LUserdata self; LString consumer; LInteger flags]
  | Line_request_falling_edge_events_flags consumer flags =>
      line_request_falling_edge_events_flags [LUserdata self; LString consumer; LInteger flags]
  | Line_request_both_edges_events_flags consumer flags =>
      line_request_both_edges_events_flags [LUserdata self; LString consumer; LInteger flags]
  | Line_event_wait timeout => line_event_wait [LUserdata self; opt_number timeout]
  | Line_event_read => line_event_read [LUserdata self]
  | Line_event_get_fd => line_event_get_fd [LUserdata self]
  | Line_get_value => line_get_value [LUserdata self]
  | Line_set_value value => line_set_value [LUserdata self; LInteger value]
  | Line_offset => line_offset [LUserdata self]
  | Line_name => line_name [LUserdata self]
  | Line_consumer => line_consumer [LUserdata self]
  | Line_direction => line_direction [LUserdata self]
  | Line_active_state => line_active_state [LUserdata self]
  | Line_bias => line_bias [LUserdata self]
  | Line_is_used => line_is_used [LUserdata self]
  | Line_is_open_drain => line_is_open_drain [LUserdata self]
  | Line_is_open_source => line_is_open_source [LUserdata self]
  | Line_update => line_update [LUserdata self]
  | Line_release => line_release [LUserdata self]
  end.

End Binding.

(** ** Handles in the store *)

(** The userdata at [a] is a controller, line, group or enumerator
    handle with the given fields. *)
Definition is_chip {D} (w : world D) (a : addr) (c : LuaChip) : Prop :=
  heap w !! a = Some {| payload := UChip c; metatable := Some GPIOD_CHIP_MT |}.

Definition is_line {D} (w : world D) (a : addr) (l : LuaLine) : Prop :=
  heap w !! a = Some {| payload := ULine l; metatable := Some GPIOD_LINE_MT |}.

Definition is_bulk {D} (w : world D) (a : addr) (b : LuaLineBulk) : Prop :=
  heap w !! a = Some {| payload := UBulk b; metatable := Some GPIOD_LINE_BULK_MT |}.

Definition is_iter {D} (w : world D) (a : addr) (i : LuaChipIter) : Prop :=
  heap w !! a = Some {| payload := UIter i; metatable := Some GPIOD_CHIP_ITER_MT |}.

(** The calls made to the driver while going from [w] to [w']. *)
Definition calls_between {D} (w w' : world D) (cs : list call_record) : Prop :=
  trace w' = trace w ++ cs.

(** ** The reference Lua *)

(** The conversions as [lobject.c] and [ltable.c] of Lua 5.3.6 make
    them, on an LP64 host in the C locale.  The properties of the
    binding do not depend on them; the examples are run with them. *)
Module LuaLib.

Definition hexa_val (c : ascii) : option Z :=
  let n := nat_of_ascii c in
  if ((48 <=? n)%nat && (n <=? 57)%nat)%bool then Some (Z.of_nat n - 48)
  else if ((97 <=? n)%nat && (n <=? 102)%nat)%bool then Some (Z.of_nat n - 87)
  else if ((65 <=? n)%nat && (n <=? 70)%nat)%bool then Some (Z.of_nat n - 55)
  else None.

Fixpoint read_xdigits (acc : Z) (n : nat) (s : string) : Z * nat * string :=
  match s with
  | String c rest =>
      match hexa_val c with
      | Some d => read_xdigits (16 * acc + d) (S n) rest
      | None => (acc, n, s)
      end
  | EmptyString => (acc, n, s)
  end.

Definition read_sign (s : string) : bool * string :=
  match s with
  | String "-" rest => (true, rest)
  | String "+" rest => (false, rest)
  | _ => (false, s)
  end.

Definition is_x (c : ascii) : bool := Ascii.eqb c "x" || Ascii.eqb c "X".
Definition is_e (c : ascii) : bool := Ascii.eqb c "e" || Ascii.eqb c "E".
Definition is_p (c : ascii) : bool := Ascii.eqb c "p" || Ascii.eqb c "P".

(** An unsigned 64-bit value read as a [lua_Integer]. *)
Definition l_castU2S (a : Z) : Z := (a + 2 ^ 63) mod 2 ^ 64 - 2 ^ 63.

(** [l_str2int]: white space, a sign, decimal digits or [0x] and
    hexadecimal ones, white space.  A hexadecimal numeral wraps around;
    a decimal one that does not fit is left to [l_str2d]. *)
Definition l_str2int (s : string) : option Z :=
  let '(neg, body) := read_sign (skip_space s) in
  let '(a, n, rest, hex) :=
    match body with
    | String "0" (String x digits) =>
        if is_x x then (read_xdigits 0 0 digits, true) else (read_digits 0 0 body, false)
    | _ => (read_digits 0 0 body, false)
    end in
  match n, skip_space rest with
  | S _, EmptyString =>
      if hex || (a <=? 2 ^ 63 - 1 + (if neg then 1 else 0))
      then Some (l_castU2S (if neg then - a else a))
      else None
  | _, _ => None
  end.

(** The double nearest to [m * 2 ^ e], and to [m * 10 ^ e10]: for a
    negative [e10] the quotient is taken with 64 bits and more, and a
    last bit that tells whether anything was left over. *)
Definition make_double (neg : bool) (m e : Z) : float :=
  SF2Prim (binary_normalize prec emax (if neg then - m else m) e neg).

Definition decimal_double (neg : bool) (m e10 : Z) : float :=
  if 0 <=? e10 then make_double neg (m * 10 ^ e10) 0
  else
    let den := 10 ^ (- e10) in
    let s := 64 + Z.log2_up den in
    let q := (m * 2 ^ s) / den in
    let sticky := if (m * 2 ^ s) mod den =? 0 then 0 else 1 in
    make_double neg (2 * q + sticky) (- s - 1).

(** An exponent is read only when a digit follows its marker. *)
Definition read_exponent (marker : ascii -> bool) (s : string) : Z * string :=
  match s with
  | String c rest =>
      if marker c then
        let '(eneg, digits) := read_sign rest in
        let '(e, n, rest') := read_digits 0 0 digits in
        match n with
        | O => (0, s)
        | S _ => ((if eneg then - e else e), rest')
        end
      else (0, s)
  | EmptyString => (0, s)
  end.

Definition read_fraction (digits : Z -> nat -> string -> Z * nat * string) (m : Z) (s : string)
  : Z * nat * string :=
  match s with
  | String "." rest => digits m 0%nat rest
  | _ => (m, 0%nat, s)
  end.

Definition strtod_decimal (neg : bool) (body : string) : option (float * string) :=
  let '(i, ni, s1) := read_digits 0 0 body in
  let '(m, nf, s2) := read_fraction read_digits i s1 in
  match (ni + nf)%nat with
  | O => None
  | S _ =>
      let '(e, s3) := read_exponent is_e s2 in
      Some (decimal_double neg m (e - Z.of_nat nf), s3)
  end.

Definition strtod_hex (neg : bool) (digits : string) : option (float * string) :=
  let '(i, ni, s1) := read_xdigits 0 0 digits in
  let '(m, nf, s2) := read_fraction read_xdigits i s1 in
  match (ni + nf)%nat with
  | O => None
  | S _ =>
      let '(e, s3) := read_exponent is_p s2 in
      Some (make_double neg m (e - 4 * Z.of_nat nf), s3)
  end.

(** [strtod] without [inf] and [nan], which [l_str2d] refuses: the
    number read and the text that follows it, or nothing. *)
Definition strtod (nptr : string) : option (float * string) :=
  let '(neg, body) := read_sign (skip_space nptr) in
  match body with
  | String "0" (String x digits) =>
      if is_x x then
        match strtod_hex neg digits with
        | Some r => Some r
        | None => strtod_decimal neg body
        end
      else strtod_decimal neg body
  | _ => strtod_decimal neg body
  end.

(** [l_str2d]: the whole string, up to white space at its end, must be
    the numeral. *)
Definition l_str2d (s : string) : option float :=
  match strtod s with
  | Some (f, endptr) =>
      match skip_space endptr with
      | EmptyString => Some f
      | _ => None
      end
  | None => None
  end.

Definition luaO_str2num (s : string) : option numeral :=
  match l_str2int s with
  | Some i => Some (NInt i)
  | None => option_map NFlt (l_str2d s)
  end.

(** [num / den * 10 ^ k] to the nearest integer, a tie to the even one. *)
Definition round_scaled (num den k : Z) : Z :=
  let n := if 0 <=? k then num * 10 ^ k else num in
  let d := if 0 <=? k then den else den * 10 ^ (- k) in
  let q := n / d in
  let r := n mod d in
  if 2 * r <? d then q
  else if d <? 2 * r then q + 1
  else if Z.even q then q else q + 1.

(** The decimal exponent of [num / den > 0]: the [x] with
    [10 ^ x <= num / den < 10 ^ (x + 1)]. *)
Fixpoint digits_above (fuel : nat) (n : Z) : Z :=
  match fuel with
  | O => 0
  | S fuel => if n <? 10 then 0 else 1 + digits_above fuel (n / 10)
  end.

Fixpoint digits_below (fuel : nat) (num den : Z) : Z :=
  match fuel with
  | O => 0
  | S fuel => if den <=? num then 0 else digits_below fuel (10 * num) den - 1
  end.

Definition decimal_exponent (num den : Z) : Z :=
  if den <=? num then digits_above (Z.to_nat (Z.log2 num)) (num / den)
  else digits_below (Z.to_nat (Z.log2 den) + 1) num den.

Fixpoint strip_zeros (s : string) : string :=
  match s with
  | EmptyString => EmptyString
  | String c rest =>
      match strip_zeros rest with
      | EmptyString => if Ascii.eqb c "0" then EmptyString else String c EmptyString
      | rest' => String c rest'
      end
  end.

Definition with_point (int frac : string) : string :=
  match frac with
  | EmptyString => int
  | _ => int +:+ "." +:+ frac
  end.

Fixpoint zeros (n : nat) : string :=
  match n with
  | O => EmptyString
  | S n => String "0" (zeros n)
  end.

(** [printf] with the format [%.14g] on the positive number
    [num / den]: fourteen significant digits, in exponent notation when
    the exponent is below -4 or not below 14, zeros at the end dropped. *)
Definition format_g14 (num den : Z) : string :=
  let x0 := decimal_exponent num den in
  let d0 := round_scaled num den (13 - x0) in
  let x := if d0 =? 10 ^ 14 then x0 + 1 else x0 in
  let ds := pretty (if d0 =? 10 ^ 14 then 10 ^ 13 else d0) in
  if (x <? -4) || (14 <=? x) then
    with_point (substring 0 1 ds) (strip_zeros (substring 1 13 ds))
    +:+ "e" +:+ (if x <? 0 then "-" else "+")
    +:+ (if Z.abs x <? 10 then "0" else "") +:+ pretty (Z.abs x)
  else if 0 <=? x then
    with_point (substring 0 (Z.to_nat (x + 1)) ds)
               (strip_zeros (substring (Z.to_nat (x + 1)) (Z.to_nat (13 - x)) ds))
  else "0." +:+ zeros (Z.to_nat (- x - 1)) +:+ strip_zeros ds.

Fixpoint looks_like_int (s : string) : bool :=
  match s with
  | EmptyString => true
  | String c rest =>
      (Ascii.eqb c "-" || (Ascii.leb "0" c && Ascii.leb c "9")) && looks_like_int rest
  end.

(** A float as [lua_tolstring] prints it: [%.14g], and [.0] after a
    text that looks like an integer.  The one NaN of the model prints
    without a sign. *)
Definition lua_Number2str (f : float) : string :=
  let buff :=
    match Prim2SF f with
    | S754_zero s => if s then "-0" else "0"
    | S754_infinity s => if s then "-inf" else "inf"
    | S754_nan => "nan"
    | S754_finite s m e =>
        (if s then "-" else "")
        +:+ (if 0 <=? e then format_g14 (Z.shiftl (Zpos m) e) 1
             else format_g14 (Zpos m) (2 ^ (- e)))
    end in
  if looks_like_int buff then buff +:+ ".0" else buff.

Definition is_nil (v : lua_value) : bool :=
  match v with
  | LNil => true
  | _ => false
  end.

(** [luaH_getn] on a table as a constructor builds it, the entries in
    its array part and nothing else: the size of the array when its
    last entry is not nil, else a border found by bisection. *)
Fixpoint bisect (fuel : nat) (tbl : list lua_value) (i j : nat) : nat :=
  match fuel with
  | O => i
  | S fuel =>
      if (j - i <=? 1)%nat then i
      else
        let m := ((i + j) / 2)%nat in
        if is_nil (nth (m - 1) tbl LNil) then bisect fuel tbl i m else bisect fuel tbl m j
  end.

Definition luaH_getn (tbl : list lua_value) : nat :=
  let j := length tbl in
  if (0 <? j)%nat && is_nil (nth (j - 1) tbl LNil) then bisect j tbl 0 j else j.

#[refine] Instance lua : lua_library :=
  {| str2num := luaO_str2num; num2str := lua_Number2str; getn := luaH_getn |}.
Proof.
  assert (Hnil : forall v, is_nil v = true <-> v = LNil) by (intros []; cbn; split; congruence).
  assert (Hbisect : forall tbl fuel (i j : nat),
            (i = 0%nat \/ nth (i - 1) tbl LNil <> LNil) -> nth (j - 1) tbl LNil = LNil ->
            (i < j <= i + S fuel)%nat -> border tbl (bisect fuel tbl i j)).
  { intros tbl fuel. induction fuel as [|fuel IH]; intros i j Hi Hj Hij.
    - replace j with (S i) in Hj by lia. cbn in Hj. rewrite Nat.sub_0_r in Hj. now split.
    - cbn [bisect]. destruct (Nat.leb_spec (j - i) 1) as [Hle|Hgt].
      + replace j with (S i) in Hj by lia. cbn in Hj. rewrite Nat.sub_0_r in Hj. now split.
      + assert (Hm : (i < (i + j) / 2 < j)%nat).
        { split; [apply Nat.div_le_lower_bound; lia|apply Nat.Div0.div_lt_upper_bound; lia]. }
        destruct (is_nil (nth ((i + j) / 2 - 1) tbl LNil)) eqn:Hv.
        * apply IH; [exact Hi|now apply Hnil|lia].
        * apply IH; [right; intros E; apply Hnil in E; congruence|exact Hj|lia]. }
  intros tbl. unfold luaH_getn.
  destruct (Nat.ltb_spec 0 (length tbl)) as [Hpos|Hzero]; cbn [andb].
  - destruct (is_nil (nth (length tbl - 1) tbl LNil)) eqn:Hv.
    + apply Hbisect; [now left|now apply Hnil|lia].
    + split; [right; intros E; apply Hnil in E; congruence|].
      apply nth_overflow. lia.
  - split; [left; lia|]. apply nth_overflow. lia.
Defined.

End LuaLib.

(** ** A simulated backend *)

(** A small driver to run the binding on: controllers with named lines,
    each line free or requested, as input or output, with a level.  A
    pointer to a controller is its number and a pointer to a line is
    its position in [sim_lines].  Reading or writing needs a requested
    line, requesting needs a free one, and releasing frees it. *)
Module Sim.

Record sim_chip := { sc_name : string; sc_label : string }.

Record sim_line := {
  sl_chip : nat;
  sl_offset : Z;
  sl_name : option string;
  sl_requested : bool;
  sl_output : bool;
  sl_value : Z
}.

Record sim := {
  sim_chips : list sim_chip;
  sim_lines : list sim_line;
  sim_iter_offset : nat
}.

Fixpoint find_index {A} (p : A -> bool) (l : list A) (i : nat) : option nat :=
  match l with
  | [] => None
  | x :: rest => if p x then Some i else find_index p rest (S i)
  end.

Fixpoint indices {A} (p : A -> bool) (l : list A) (i : nat) : list nat :=
  match l with
  | [] => []
  | x :: rest => if p x then i :: indices p rest (S i) else indices p rest (S i)
  end.

Definition on_chip (c : nat) (l : sim_line) : bool := (sl_chip l =? c)%nat.

Definition line_at (d : sim) (c : nat) (offset : Z) : option nat :=
  find_index (fun l => on_chip c l && (sl_offset l =? offset)) (sim_lines d) 0.

Fixpoint lines_at (d : sim) (c : nat) (offsets : list Z) : option (list nat) :=
  match offsets with
  | [] => Some []
  | o :: rest =>
      match line_at d c o, lines_at d c rest with
      | Some l, Some ls => Some (l :: ls)
      | _, _ => None
      end
  end.

Definition set_line (d : sim) (l : nat) (f : sim_line -> sim_line) : sim :=
  {| sim_chips := sim_chips d;
     sim_lines := match sim_lines d !! l with
                  | Some x => <[l := f x]> (sim_lines d)
                  | None => sim_lines d
                  end;
     sim_iter_offset := sim_iter_offset d |}.

Definition requested (d : sim) (l : nat) : bool :=
  match sim_lines d !! l with
  | Some x => sl_requested x
  | None => false
  end.

Definition is_free (d : sim) (l : nat) : bool :=
  match sim_lines d !! l with
  | Some x => negb (sl_requested x)
  | None => false
  end.

Definition writable (d : sim) (l : nat) : bool :=
  match sim_lines d !! l with
  | Some x => sl_requested x && sl_output x
  | None => false
  end.

Definition level (d : sim) (l : nat) : Z :=
  match sim_lines d !! l with
  | Some x => sl_value x
  | None => 0
  end.

Definition as_requested (output : bool) (value : Z) (x : sim_line) : sim_line :=
  {| sl_chip := sl_chip x; sl_offset := sl_offset x; sl_name := sl_name x;
     sl_requested := true; sl_output := output; sl_value := value |}.

Definition as_free (x : sim_line) : sim_line :=
  {| sl_chip := sl_chip x; sl_offset := sl_offset x; sl_name := sl_name x;
     sl_requested := false; sl_output := false; sl_value := sl_value x |}.

Definition with_level (value : Z) (x : sim_line) : sim_line :=
  {| sl_chip := sl_chip x; sl_offset := sl_offset x; sl_name := sl_name x;
     sl_requested := sl_requested x; sl_output := sl_output x;
     sl_value := if value =? 0 then 0 else 1 |}.

Definition request (d : sim) (l : nat) (output : bool) (value : Z) : Z * sim :=
  if is_free d l
  then (0, set_line d l (fun x => as_requested output (if output then value else sl_value x) x))
  else (-1, d).

(** A bulk request takes all the lines or none. *)
Fixpoint request_all (d : sim) (ls : list nat) (output : bool) (values : list Z) : sim :=
  match ls with
  | [] => d
  | l :: rest =>
      request_all (snd (request d l output (hd 0 values))) rest output (tl values)
  end.

Fixpoint write_all (d : sim) (ls : list nat) (values : list Z) : sim :=
  match ls with
  | [] => d
  | l :: rest => write_all (set_line d l (with_level (hd 0 values))) rest (tl values)
  end.

Definition release_all (d : sim) (ls : list nat) : sim :=
  fold_left (fun d l => set_line d l as_free) ls d.

Definition advance (d : sim) : sim :=
  {| sim_chips := sim_chips d; sim_lines := sim_lines d;
     sim_iter_offset := S (sim_iter_offset d) |}.

Definition rewind (d : sim) : sim :=
  {| sim_chips := sim_chips d; sim_lines := sim_lines d; sim_iter_offset := 0 |}.

Definition no_event : gpiod_line_event :=
  {| event_type := 0; ts := {| tv_sec := 0; tv_nsec := 0 |} |}.

Definition sim_driver : driver sim :=
  fun R c =>
    match c in drv_call R return sim -> R * sim with
    | gpiod_chip_open_by_name name => fun d =>
        (find_index (fun x => String.eqb (sc_name x) name) (sim_chips d) 0, d)
    | gpiod_chip_open_by_number num => fun d =>
        (if num <? Z.of_nat (length (sim_chips d)) then Some (Z.to_nat num) else None, d)
    | gpiod_chip_get_line c offset => fun d => (line_at d c offset, d)
    | gpiod_chip_get_lines c offsets => fun d =>
        (match lines_at d c offsets with Some ls => (0, ls) | None => (-1, []) end, d)
    | gpiod_chip_find_line c name => fun d =>
        (find_index
           (fun l => on_chip c l &&
                     match sl_name l with Some n => String.eqb n name | None => false end)
           (sim_lines d) 0, d)
    | gpiod_chip_get_all_lines c => fun d => ((0, indices (on_chip c) (sim_lines d) 0), d)
    | gpiod_chip_name c => fun d => (sc_name <$> sim_chips d !! c, d)
    | gpiod_chip_label c => fun d => (sc_label <$> sim_chips d !! c, d)
    | gpiod_chip_num_lines c => fun d =>
        (Z.of_nat (length (indices (on_chip c) (sim_lines d) 0)), d)
    | gpiod_chip_close _ => fun d => (tt, d)
    | gpiod_line_request_input_flags l _ _ => fun d => request d l false 0
    | gpiod_line_request_output_flags l _ _ v => fun d => request d l true v
    | gpiod_line_get_value l => fun d => (if requested d l then level d l else -1, d)
    | gpiod_line_set_value l v => fun d =>
        if writable d l then (0, set_line d l (with_level v)) else (-1, d)
    | gpiod_line_offset l => fun d =>
        (match sim_lines d !! l with Some x => sl_offset x | None => 0 end, d)
    | gpiod_line_name l => fun d =>
        (match sim_lines d !! l with Some x => sl_name x | None => None end, d)
    | gpiod_line_consumer l => fun d => (None, d)
    | gpiod_line_direction l => fun d =>
        (match sim_lines d !! l with Some x => if sl_output x then 2 else 1 | None => 1 end, d)
    | gpiod_line_is_used l => fun d => (requested d l, d)
    | gpiod_line_release l => fun d => (tt, set_line d l as_free)
    | gpiod_line_request_rising_edge_events l _ => fun d => request d l false 0
    | gpiod_line_request_falling_edge_events l _ => fun d => request d l false 0
    | gpiod_line_request_both_edges_events l _ => fun d => request d l false 0
    | gpiod_line_request_rising_edge_events_flags l _ _ => fun d => request d l false 0
    | gpiod_line_request_falling_edge_events_flags l _ _ => fun d => request d l false 0
    | gpiod_line_request_both_edges_events_flags l _ _ => fun d => request d l false 0
    | gpiod_line_event_wait l _ => fun d => (if requested d l then 0 else -1, d)
    | gpiod_line_event_read l => fun d => ((-1, no_event), d)
    | gpiod_line_event_get_fd l => fun d => (if requested d l then 3 else -1, d)
    | gpiod_line_active_state l => fun d => (1, d)
    | gpiod_line_bias l => fun d => (1, d)
    | gpiod_line_is_open_drain l => fun d => (false, d)
    | gpiod_line_is_open_source l => fun d => (false, d)
    | gpiod_line_update l => fun d => (0, d)
    | gpiod_line_request_bulk_input_flags b _ _ => fun d =>
        if forallb (is_free d) b then (0, request_all d b false []) else (-1, d)
    | gpiod_line_request_bulk_output_flags b _ _ vs => fun d =>
        if forallb (is_free d) b then (0, request_all d b true vs) else (-1, d)
    | gpiod_line_get_value_bulk b => fun d =>
        (if forallb (requested d) b
         then (0, fun i => match b !! i with Some l => level d l | None => 0 end)
         else (-1, fun _ => 0), d)
    | gpiod_line_set_value_bulk b vs => fun d =>
        if forallb (writable d) b then (0, write_all d b vs) else (-1, d)
    | gpiod_line_release_bulk b => fun d => (tt, release_all d b)
    | gpiod_chip_iter_new => fun d => (Some O, rewind d)
    | gpiod_chip_iter_next_noclose _ => fun d =>
        if (sim_iter_offset d <? length (sim_chips d))%nat
        then (Some (sim_iter_offset d), advance d)
        else (None, d)
    | gpiod_chip_iter_free_noclose _ => fun d => (tt, d)
    end.

(** The constants of libgpiod 1.x. *)
Definition constants : gpiod_h :=
  {| GPIOD_LINE_DIRECTION_INPUT := 1; GPIOD_LINE_DIRECTION_OUTPUT := 2;
     GPIOD_LINE_ACTIVE_STATE_HIGH := 1; GPIOD_LINE_ACTIVE_STATE_LOW := 2;
     GPIOD_LINE_BIAS_AS_IS := 1; GPIOD_LINE_BIAS_DISABLE := 2;
     GPIOD_LINE_BIAS_PULL_UP := 3; GPIOD_LINE_BIAS_PULL_DOWN := 4;
     GPIOD_LINE_EVENT_RISING_EDGE := 1; GPIOD_LINE_EVENT_FALLING_EDGE := 2 |}.

Definition free_line (c : nat) (offset : Z) : sim_line :=
  {| sl_chip := c; sl_offset := offset; sl_name := None;
     sl_requested := false; sl_output := false; sl_value := 0 |}.

(** A host with one controller, [gpiochip0], of four lines. *)
Definition host : sim :=
  {| sim_chips := [{| sc_name := "gpiochip0"; sc_label := "sim" |}];
     sim_lines := [free_line 0 0; free_line 0 1; free_line 0 2; free_line 0 3];
     sim_iter_offset := 0 |}.

Definition boot : world sim := World [] host [].

(** Running a script: each step is a function of the binding applied to
    its arguments; the results are collected, and the run stops at the
    first error, as an uncaught Lua error would. *)
Fixpoint run (steps : list (Lua sim (list lua_value))) (w : world sim)
  : list (result (list lua_value)) * world sim :=
  match steps with
  | [] => ([], w)
  | f :: rest =>
      match f w with
      | (Ok v, w') => let '(rs, w'') := run rest w' in (Ok v :: rs, w'')
      | (Raise e, w') => ([Raise e], w')
      end
  end.

End Sim.

(** Worlds the simulated host can be brought to. *)
Module Scenario.
Import Sim.
#[local] Existing Instance LuaLib.lua.

(** After [gpiod.chip_open("gpiochip0")]: the controller handle is the
    userdata 0. *)
Definition chip_world : world sim :=
  snd (chip_open sim_driver [LString "gpiochip0"] boot).

(** After [chip:get_line(2)] and [line:request_output("app", 0)]: the
    line handle is the userdata 1. *)
Definition line_world : world sim :=
  snd (run [chip_get_line sim_driver [LUserdata 0%nat; LInteger 2];
            line_request_output sim_driver
              [LUserdata 1%nat; LString "app"; LInteger 0]] chip_world).

(** After [chip:get_lines({0, 1})]: the group handle is the userdata 1. *)
Definition group_world : world sim :=
  snd (chip_get_lines sim_driver [LUserdata 0%nat; LTable [LInteger 0; LInteger 1]] chip_world).


(** The group requested as output with both lines low. *)
Definition output_group_world : world sim :=
  snd (bulk_request_output sim_driver
         [LUserdata 1%nat; LString "app"; LTable [LInteger 0; LInteger 0]] group_world).

(** After [chip:get_lines({0, 1, 2})] and [bulk:request_input("app")]. *)
Definition input_group_world : world sim :=
  snd (run [chip_get_lines sim_driver
              [LUserdata 0%nat; LTable [LInteger 0; LInteger 1; LInteger 2]];
            bulk_request_input sim_driver [LUserdata 1%nat; LString "app"]] chip_world).

(** After [gpiod.chip_iter()]: the enumerator handle is the userdata 0. *)
Definition iter_world : world sim :=
  snd (gpiod_chip_iter sim_driver [] boot).

(** After [iter:next_noclose()] on that enumerator: the controller it
    yielded is the userdata 1. *)
Definition yielded_world : world sim :=
  snd (chip_iter_next_noclose sim_driver [LUserdata 0%nat] iter_world).

(** The group requested as input and released, and its line 0 then
    requested as output through a line handle (2) taken from the
    group. *)
Definition rerequested_world : world sim :=
  snd (run [bulk_request_input sim_driver [LUserdata 1%nat; LString "app"];
            bulk_get_line [LUserdata 1%nat; LInteger 0];
            bulk_release sim_driver [LUserdata 1%nat];
            line_request_output sim_driver [LUserdata 2%nat; LString "led"; LInteger 1]]
         group_world).


End Scenario.

(** ** More of the binding: events, method tables, and what a line
       method asks of the driver *)

Definition is_event {D} (w : world D) (a : addr) (e : LuaLineEvent) : Prop :=
  heap w !! a = Some {| payload := UEvent e; metatable := Some GPIOD_LINE_EVENT_MT |}.

Section Tables.

Context {D : Type} {lua : lua_library}.
Variable drv : driver D.
Variable K : gpiod_h.

Definition lua_CFunction : Type := list lua_value -> Lua D (list lua_value).




Definition line_event_methods_reg : list (string * lua_CFunction) :=
  [("event_type", event_event_type K);
   ("timestamp", event_timestamp)].



(** The call a line method that reports a status makes on the line [l],
    with the arguments as the C function converts them. *)
Definition line_status_call (m : line_method) (l : gpiod_line) : option (drv_call Z) :=
  match m with
  | Line_request_input consumer flags =>
      Some (gpiod_line_request_input_flags l (c_str consumer) (c_int (default 0 flags)))
  | Line_request_output consumer default_val flags =>
      Some (gpiod_line_request_output_flags
              l (c_str consumer) (c_int (default 0 flags)) (c_int default_val))
  | Line_request_rising_edge_events consumer =>
      Some (gpiod_line_request_rising_edge_events l (c_str consumer))
  | Line_request_falling_edge_events consumer =>
      Some (gpiod_line_request_falling_edge_events l (c_str consumer))
  | Line_request_both_edges_events consumer =>
      Some (gpiod_line_request_both_edges_events l (c_str consumer))
  | Line_request_rising_edge_events_flags consumer flags =>
      Some (gpiod_line_request_rising_edge_events_flags l (c_str consumer) (c_int flags))
  | Line_request_falling_edge_events_flags consumer flags =>
      Some (gpiod_line_request_falling_edge_events_flags l (c_str consumer) (c_int flags))
  | Line_request_both_edges_events_flags consumer flags =>
      Some (gpiod_line_request_both_edges_events_flags l (c_str consumer) (c_int flags))
  | Line_event_get_fd => Some (gpiod_line_event_get_fd l)
  | Line_get_value => Some (gpiod_line_get_value l)
  | Line_set_value value => Some (gpiod_line_set_value l (c_int value))
  | Line_update => Some (gpiod_line_update l)
  | _ => None
  end.


End Tables.

(** ** A simulated backend with edge events *)

(** The simulated host, with a queue of edges that have happened: a
    wait on a requested line reports whether the queue is empty, a read
    takes its first event. *)
Module EventSim.
#[local] Existing Instance LuaLib.lua.

Definition state : Type := Sim.sim * list gpiod_line_event.

Definition event_driver : driver state :=
  fun R c =>
    match c in drv_call R return state -> R * state with
    | gpiod_line_event_wait l _ => fun d =>
        (if Sim.requested (fst d) l
         then match snd d with [] => 0 | _ :: _ => 1 end
         else -1, d)
    | gpiod_line_event_read l => fun d =>
        match snd d with
        | ev :: rest => ((0, ev), (fst d, rest))
        | [] => ((-1, Sim.no_event), d)
        end
    | c' => fun d => let '(r, s) := Sim.sim_driver _ c' (fst d) in (r, (s, snd d))
    end.

Definition rising_at (sec nsec : Z) : gpiod_line_event :=
  {| event_type := 1; ts := {| tv_sec := sec; tv_nsec := nsec |} |}.

(** Line 2 of [gpiochip0] requested for both edges through the line
    handle 1, with one rising edge pending. *)
Definition armed_world : world state :=
  let w :=
    snd (chip_get_line event_driver [LUserdata 0%nat; LInteger 2]
           (snd (chip_open event_driver [LString "gpiochip0"] (World [] (Sim.host, []) [])))) in
  let w' :=
    snd (line_request_both_edges_events event_driver [LUserdata 1%nat; LString "app"] w) in
  World (heap w') (fst (dstate w'), [rising_at 12 500000000]) (trace w').

End EventSim.

(** More worlds of the simulated host. *)
Module Tour.
Import Sim Scenario.
#[local] Existing Instance LuaLib.lua.

(** A controller handle (0), a line handle (1) on line 2 requested as
    output, a group handle (2) on the lines 0 and 1, and a second line
    handle (3) on line 2. *)
Definition derived_world : world sim :=
  snd (run [chip_get_lines sim_driver [LUserdata 0%nat; LTable [LInteger 0; LInteger 1]];
            chip_get_line sim_driver [LUserdata 0%nat; LInteger 2]] line_world).


End Tour.

(** * Properties *)

Section Properties.

Context {D : Type} {lua : lua_library}.
Variable drv : driver D.
Variable K : gpiod_h.

(** ** Running the monad *)

Lemma bind_ok {A B} (m : Lua D A) (k : A -> Lua D B) w a w' :
  m w = (Ok a, w') -> bind m k w = k a w'.
Proof. intros H. unfold bind. now rewrite H. Qed.

Lemma checkudata_ok (w : world D) a u tname rest :
  heap w !! a = Some {| payload := u; metatable := Some tname |} ->
  luaL_checkudata (LUserdata a :: rest) 1 tname w = (Ok (a, u), w).
Proof.
  intros H. unfold luaL_checkudata. simpl. rewrite H. simpl.
  case_decide; [reflexivity | congruence].
Qed.

Lemma check_chip_ok (w : world D) a c rest :
  is_chip w a c -> check_chip (LUserdata a :: rest) w = (Ok (a, c), w).
Proof.
  intros H. unfold check_chip.
  now rewrite (bind_ok _ _ _ _ _ (checkudata_ok _ _ _ _ _ H)).
Qed.

Lemma check_line_ok (w : world D) a l rest :
  is_line w a l -> check_line (LUserdata a :: rest) w = (Ok (a, l), w).
Proof.
  intros H. unfold check_line.
  now rewrite (bind_ok _ _ _ _ _ (checkudata_ok _ _ _ _ _ H)).
Qed.

Lemma check_bulk_ok (w : world D) a b rest :
  is_bulk w a b -> check_bulk (LUserdata a :: rest) w = (Ok (a, b), w).
Proof.
  intros H. unfold check_bulk.
  now rewrite (bind_ok _ _ _ _ _ (checkudata_ok _ _ _ _ _ H)).
Qed.

Lemma check_iter_ok (w : world D) a i rest :
  is_iter w a i -> check_iter (LUserdata a :: rest) w = (Ok (a, i), w).
Proof.
  intros H. unfold check_iter.
  now rewrite (bind_ok _ _ _ _ _ (checkudata_ok _ _ _ _ _ H)).
Qed.

Ltac enter_chip H := rewrite (bind_ok _ _ _ _ _ (check_chip_ok _ _ _ _ H)).
Ltac enter_line H := rewrite (bind_ok _ _ _ _ _ (check_line_ok _ _ _ _ H)).
Ltac enter_bulk H := rewrite (bind_ok _ _ _ _ _ (check_bulk_ok _ _ _ _ H)).
Ltac enter_iter H := rewrite (bind_ok _ _ _ _ _ (check_iter_ok _ _ _ _ H)).

(** A block that was just allocated is the last of the store. *)
Lemma store_fresh (h : list object) (d : D) t u u' mt :
  store (length h) u' (World (h ++ [{| payload := u; metatable := mt |}]) d t)
  = (Ok tt, World (h ++ [{| payload := u'; metatable := mt |}]) d t).
Proof.
  unfold store. cbn. rewrite list_lookup_middle by reflexivity.
  rewrite insert_app_r_alt by lia. now rewrite Nat.sub_diag.
Qed.

Lemma setmetatable_fresh (h : list object) (d : D) t u mt tname :
  luaL_setmetatable (length h) tname (World (h ++ [{| payload := u; metatable := mt |}]) d t)
  = (Ok tt, World (h ++ [{| payload := u; metatable := Some tname |}]) d t).
Proof.
  unfold luaL_setmetatable. cbn. rewrite list_lookup_middle by reflexivity.
  rewrite insert_app_r_alt by lia. now rewrite Nat.sub_diag.
Qed.

(** ** The loops over a table of integers *)

Lemma for_each_ret {A} (f : nat -> A) i n (w : world D) :
  for_each (fun i => ret (f i)) i n w = (Ok (map f (seq i n)), w).
Proof.
  revert i. induction n as [|n IH]; intros i; [reflexivity|].
  cbn [for_each seq map]. unfold bind at 1. cbn [ret].
  unfold bind at 1. now rewrite IH.
Qed.

Lemma rawgeti_integers (vs : list Z) (k : nat) :
  lua_rawgeti (map LInteger vs) (Z.of_nat k + 1) =
  match vs !! k with Some v => LInteger v | None => LNil end.
Proof.
  unfold lua_rawgeti.
  replace (1 <=? Z.of_nat k + 1) with true by (symmetry; apply Z.leb_le; lia).
  replace (Z.to_nat (Z.of_nat k + 1 - 1)) with k by lia.
  rewrite nth_lookup, list_lookup_fmap. now destruct (vs !! k).
Qed.

(** With enough entries the loop reads one per line, in order, and
    ignores the rest. *)
Lemma for_each_integers (g : Z -> Z) (vs : list Z) k n (w : world D) :
  (k + n <= length vs)%nat ->
  for_each (fun i =>
    let* v := check_integer (-1) (lua_rawgeti (map LInteger vs) (Z.of_nat i + 1)) in
    ret (g v)) k n w
  = (Ok (map g (take n (drop k vs))), w).
Proof.
  revert k. induction n as [|n IH]; intros k Hk.
  - now rewrite take_0.
  - destruct (lookup_lt_is_Some_2 vs k) as [v Hv]; [lia|].
    cbn [for_each]. rewrite rawgeti_integers, Hv.
    unfold bind at 1. cbn. unfold bind at 1.
    rewrite IH by lia. rewrite (drop_S _ _ _ Hv). reflexivity.
Qed.

(** With too few entries the loop reaches a nil and [luaL_checkinteger]
    raises. *)
Lemma for_each_too_short (g : Z -> Z) (vs : list Z) k n (w : world D) :
  (k <= length vs)%nat -> (length vs < k + n)%nat ->
  for_each (fun i =>
    let* v := check_integer (-1) (lua_rawgeti (map LInteger vs) (Z.of_nat i + 1)) in
    ret (g v)) k n w
  = (Raise (ArgError (-1) "number expected"), w).
Proof.
  revert k. induction n as [|n IH]; intros k Hk Hn; [lia|].
  cbn [for_each]. rewrite rawgeti_integers.
  destruct (vs !! k) as [v|] eqn:Hv.
  - apply lookup_lt_Some in Hv.
    unfold bind at 1. cbn. unfold bind at 1. now rewrite IH by lia.
  - reflexivity.
Qed.

(** The entry a position of a table holds. *)
Lemma rawgeti_lookup (tbl : list lua_value) (k : nat) :
  lua_rawgeti tbl (Z.of_nat k + 1) = default LNil (tbl !! k).
Proof.
  unfold lua_rawgeti.
  replace (1 <=? Z.of_nat k + 1) with true by (symmetry; apply Z.leb_le; lia).
  replace (Z.to_nat (Z.of_nat k + 1 - 1)) with k by lia.
  apply nth_lookup.
Qed.

Lemma interror_raises {A} (k : Z -> Lua D A) (idx : Z) (v : lua_value) (w : world D) :
  (let* z := interror idx v in k z) w =
  (Raise (ArgError idx (if lua_isnumber v then "number has no integer representation"
                        else "number expected")), w).
Proof. unfold interror, bind. now destruct (lua_isnumber v). Qed.

(** When each of the entries the loop reads converts to an integer,
    it yields them converted, in order. *)
Lemma for_each_converted (g : Z -> Z) (tbl : list lua_value) (zs : list Z) k n (w : world D) :
  Forall2 (fun v z => lua_tointegerx v = Some z) (take n (drop k tbl)) zs ->
  length zs = n ->
  for_each (fun i =>
    let* v := check_integer (-1) (lua_rawgeti tbl (Z.of_nat i + 1)) in
    ret (g v)) k n w
  = (Ok (map g zs), w).
Proof.
  revert k zs. induction n as [|n IH]; intros k zs Hconv Hlen.
  - now destruct zs.
  - destruct zs as [|z zs]; [discriminate|].
    destruct (drop k tbl) as [|v rest] eqn:Hdrop; [inversion Hconv|].
    cbn [take] in Hconv. inversion Hconv as [|? ? ? ? Hvz Hrest]; subst.
    assert (Hv : tbl !! k = Some v).
    { rewrite <- (Nat.add_0_r k), <- lookup_drop, Hdrop. reflexivity. }
    assert (Hnext : drop (S k) tbl = rest).
    { rewrite (drop_S _ _ _ Hv) in Hdrop. congruence. }
    cbn [for_each]. rewrite rawgeti_lookup, Hv. cbn [default from_option id].
    unfold check_integer at 1. rewrite Hvz.
    unfold bind at 1. unfold bind at 1. cbn [ret]. unfold bind at 1.
    rewrite (IH (S k) zs); [reflexivity|now rewrite Hnext|].
    cbn in Hlen. lia.
Qed.

(** An entry that does not convert, among those the loop reads, makes
    it raise: the error is that of the first such entry. *)
Lemma for_each_bad_entry (g : Z -> Z) (tbl : list lua_value) k n i (w : world D) :
  (k <= i < k + n)%nat ->
  lua_tointegerx (default LNil (tbl !! i)) = None ->
  exists j,
    (k <= j <= i)%nat
    /\ lua_tointegerx (default LNil (tbl !! j)) = None
    /\ for_each (fun i =>
         let* v := check_integer (-1) (lua_rawgeti tbl (Z.of_nat i + 1)) in
         ret (g v)) k n w
       = (Raise (ArgError (-1) (if lua_isnumber (default LNil (tbl !! j))
                                then "number has no integer representation"
                                else "number expected")), w).
Proof.
  revert k. induction n as [|n IH]; intros k Hi Hbad; [lia|].
  cbn [for_each]. rewrite rawgeti_lookup. unfold check_integer at 1.
  destruct (lua_tointegerx (default LNil (tbl !! k))) as [z|] eqn:Hk.
  - assert (i <> k) by (intros ->; congruence).
    destruct (IH (S k)) as [j [Hj [Hjbad Hrun]]]; [lia|exact Hbad|].
    exists j. split; [lia|]. split; [exact Hjbad|].
    unfold bind at 1. unfold bind at 1. cbn [ret]. unfold bind at 1.
    now rewrite Hrun.
  - exists k. split; [lia|]. split; [exact Hk|].
    unfold bind at 1. now rewrite interror_raises.
Qed.

(** The same when the entry is the first that does not convert. *)
Lemma for_each_first_bad (g : Z -> Z) (tbl : list lua_value) k n i (w : world D) :
  (k <= i < k + n)%nat ->
  (forall j, (j < i)%nat -> lua_tointegerx (default LNil (tbl !! j)) <> None) ->
  lua_tointegerx (default LNil (tbl !! i)) = None ->
  for_each (fun i =>
    let* v := check_integer (-1) (lua_rawgeti tbl (Z.of_nat i + 1)) in
    ret (g v)) k n w
  = (Raise (ArgError (-1) (if lua_isnumber (default LNil (tbl !! i))
                           then "number has no integer representation"
                           else "number expected")), w).
Proof.
  intros Hi Hgood Hbad.
  destruct (for_each_bad_entry g tbl k n i w Hi Hbad) as [j [Hj [Hjbad Hrun]]].
  destruct (decide (j = i)) as [->|Hne]; [exact Hrun|].
  exfalso. apply (Hgood j); [lia|exact Hjbad].
Qed.

(** ** Closed and released handles *)

Lemma closed_chip_raises (w : world D) a m :
  is_chip w a {| chip_chip := None |} -> m <> Chip_close ->
  chip_methods drv m a w = (Raise ClosedResource, w).
Proof.
  intros H Hm.
  destruct m; try congruence; cbn [chip_methods];
    unfold chip_get_line, chip_get_lines, chip_find_line, chip_get_all_lines,
      chip_name, chip_label, chip_num_lines;
    enter_chip H; reflexivity.
Qed.


Lemma chip_close_run (w : world D) a c :
  is_chip w a c ->
  chip_close drv [LUserdata a] w =
  (Ok [],
   match chip_chip c with
   | Some p =>
       World (<[a := {| payload := UChip {| chip_chip := None |};
                        metatable := Some GPIOD_CHIP_MT |}]> (heap w))
             (snd (drv _ (gpiod_chip_close p) (dstate w)))
             (trace w ++ [logged (gpiod_chip_close p)])
   | None => w
   end).
Proof.
  intros H. unfold chip_close. enter_chip H.
  destruct (chip_chip c) as [p|]; [|reflexivity].
  unfold bind, call. destruct (drv _ (gpiod_chip_close p) (dstate w)) as [[] d].
  cbn. unfold store. cbn. unfold is_chip in H. rewrite H. reflexivity.
Qed.

Lemma line_release_run (w : world D) a l :
  is_line w a l ->
  line_release drv [LUserdata a] w =
  (Ok [],
   match line_line l with
   | Some p =>
       World (<[a := {| payload := ULine {| line_line := None; line_chip := line_chip l |};
                        metatable := Some GPIOD_LINE_MT |}]> (heap w))
             (snd (drv _ (gpiod_line_release p) (dstate w)))
             (trace w ++ [logged (gpiod_line_release p)])
   | None => w
   end).
Proof.
  intros H. unfold line_release. enter_line H.
  destruct (line_line l) as [p|]; [|reflexivity].
  unfold bind, call. destruct (drv _ (gpiod_line_release p) (dstate w)) as [[] d].
  cbn. unfold store. cbn. unfold is_line in H. rewrite H. reflexivity.
Qed.

Lemma chip_iter_close_run (w : world D) a i :
  is_iter w a i ->
  chip_iter_close drv [LUserdata a] w =
  (Ok [],
   match iter_iter i with
   | Some p =>
       World (<[a := {| payload := UIter {| iter_iter := None |};
                        metatable := Some GPIOD_CHIP_ITER_MT |}]> (heap w))
             (snd (drv _ (gpiod_chip_iter_free_noclose p) (dstate w)))
             (trace w ++ [logged (gpiod_chip_iter_free_noclose p)])
   | None => w
   end).
Proof.
  intros H. unfold chip_iter_close. enter_iter H.
  destruct (iter_iter i) as [p|]; [|reflexivity].
  unfold bind, call. destruct (drv _ (gpiod_chip_iter_free_noclose p) (dstate w)) as [[] d].
  cbn. unfold store. cbn. unfold is_iter in H. rewrite H. reflexivity.
Qed.


(** ** What the group functions send to the driver *)


Lemma bulk_request_output_run (w : world D) a b consumer defaults flags :
  is_bulk w a b -> (length (bulk_bulk b) <= length defaults)%nat ->
  bulk_request_output drv
    [LUserdata a; LString consumer; LTable (map LInteger defaults); opt_integer flags] w =
  let c := gpiod_line_request_bulk_output_flags
             (bulk_bulk b) (c_str consumer) (c_int (default 0 flags))
             (map c_int (take (length (bulk_bulk b)) defaults)) in
  let '(r, d) := drv _ c (dstate w) in
  (if r <? 0 then Raise RequestFailed_bulk_output else Ok [LBoolean true],
   World (heap w) d (trace w ++ [logged c])).
Proof.
  intros H Hlen. unfold bulk_request_output. enter_bulk H.
  assert (Hloop := for_each_integers c_int defaults 0 (length (bulk_bulk b)) w Hlen).
  rewrite drop_0 in Hloop.
  destruct flags as [f|]; cbn; unfold gpiod_line_bulk_num_lines;
    rewrite Nat2Z.id; unfold bind at 1; rewrite Hloop;
    unfold bind, call; cbn;
    match goal with |- context [drv ?R ?c ?d] => destruct (drv R c d) as [r d'] end;
    now destruct (r <? 0).
Qed.

Lemma bulk_request_output_short (w : world D) a b consumer defaults flags :
  is_bulk w a b -> (length defaults < length (bulk_bulk b))%nat ->
  bulk_request_output drv
    [LUserdata a; LString consumer; LTable (map LInteger defaults); opt_integer flags] w =
  (Raise (ArgError (-1) "number expected"), w).
Proof.
  intros H Hlen. unfold bulk_request_output. enter_bulk H.
  assert (Hloop := for_each_too_short c_int defaults 0 (length (bulk_bulk b)) w
                     (Nat.le_0_l _) Hlen).
  destruct flags as [f|]; cbn; unfold gpiod_line_bulk_num_lines;
    rewrite Nat2Z.id; unfold bind at 1; now rewrite Hloop.
Qed.

Lemma bulk_set_values_run (w : world D) a b values :
  is_bulk w a b -> (length (bulk_bulk b) <= length values)%nat ->
  bulk_set_values drv [LUserdata a; LTable (map LInteger values)] w =
  let c := gpiod_line_set_value_bulk
             (bulk_bulk b) (map c_int (take (length (bulk_bulk b)) values)) in
  let '(r, d) := drv _ c (dstate w) in
  (if r <? 0 then Raise (LuaError "Failed to set bulk GPIO values" [])
   else Ok [LBoolean true],
   World (heap w) d (trace w ++ [logged c])).
Proof.
  intros H Hlen. unfold bulk_set_values. enter_bulk H.
  assert (Hloop := for_each_integers c_int values 0 (length (bulk_bulk b)) w Hlen).
  rewrite drop_0 in Hloop.
  cbn; unfold gpiod_line_bulk_num_lines;
    rewrite Nat2Z.id; unfold bind at 1; rewrite Hloop;
    unfold bind, call; cbn;
    match goal with |- context [drv ?R ?c ?d] => destruct (drv R c d) as [r d'] end;
    now destruct (r <? 0).
Qed.

Lemma bulk_set_values_short (w : world D) a b values :
  is_bulk w a b -> (length values < length (bulk_bulk b))%nat ->
  bulk_set_values drv [LUserdata a; LTable (map LInteger values)] w =
  (Raise (ArgError (-1) "number expected"), w).
Proof.
  intros H Hlen. unfold bulk_set_values. enter_bulk H.
  assert (Hloop := for_each_too_short c_int values 0 (length (bulk_bulk b)) w
                     (Nat.le_0_l _) Hlen).
  cbn; unfold gpiod_line_bulk_num_lines;
    rewrite Nat2Z.id; unfold bind at 1; now rewrite Hloop.
Qed.



(** When the loop raises, so do the two functions, with the world as
    it was. *)
Lemma bulk_tables_loop_raises (w : world D) a b tbl e :
  is_bulk w a b ->
  for_each (fun i =>
    let* v := check_integer (-1) (lua_rawgeti tbl (Z.of_nat i + 1)) in
    ret (c_int v)) 0 (length (bulk_bulk b)) w = (Raise e, w) ->
  bulk_set_values drv [LUserdata a; LTable tbl] w = (Raise e, w)
  /\ forall consumer flags,
       bulk_request_output drv
         [LUserdata a; LString consumer; LTable tbl; opt_integer flags] w
       = (Raise e, w).
Proof.
  intros H Hloop. split.
  - unfold bulk_set_values. enter_bulk H.
    cbn [check_table arg nth Nat.sub]. unfold bind at 1. cbn [ret].
    unfold gpiod_line_bulk_num_lines. rewrite Nat2Z.id.
    unfold bind at 1. now rewrite Hloop.
  - intros consumer flags. unfold bulk_request_output. enter_bulk H.
    destruct flags as [f|]; cbn; unfold gpiod_line_bulk_num_lines;
      rewrite Nat2Z.id; unfold bind at 1; now rewrite Hloop.
Qed.

Lemma bulk_get_values_run (w : world D) a b :
  is_bulk w a b ->
  bulk_get_values drv [LUserdata a] w =
  let c := gpiod_line_get_value_bulk (bulk_bulk b) in
  let '(r, values, d) := drv _ c (dstate w) in
  (if r <? 0 then Raise IOFailure_bulk_read
   else Ok [LTable (map (fun i => LInteger (values i)) (seq 0 (length (bulk_bulk b))))],
   World (heap w) d (trace w ++ [logged c])).
Proof.
  intros H. unfold bulk_get_values. enter_bulk H.
  cbn. unfold bind at 1, call.
  destruct (drv _ (gpiod_line_get_value_bulk (bulk_bulk b)) (dstate w)) as [[r values] d].
  destruct (r <? 0); [reflexivity|].
  unfold bind at 1. rewrite for_each_ret.
  unfold gpiod_line_bulk_num_lines. now rewrite Nat2Z.id.
Qed.

Lemma bulk_release_run (w : world D) a b :
  is_bulk w a b ->
  bulk_release drv [LUserdata a] w =
  (Ok [],
   World (heap w) (snd (drv _ (gpiod_line_release_bulk (bulk_bulk b)) (dstate w)))
         (trace w ++ [logged (gpiod_line_release_bulk (bulk_bulk b))])).
Proof.
  intros H. unfold bulk_release. enter_bulk H.
  unfold bind, call.
  now destruct (drv _ (gpiod_line_release_bulk (bulk_bulk b)) (dstate w)) as [[] d].
Qed.

(** ** Controller handles *)

(** C6. Closing a controller handle succeeds, hands its descriptor to
    [gpiod_chip_close] (only if there still is one) and nulls it.  From
    then on every other method of the handle -- [name], [label],
    [num_lines], [get_line], [get_lines], [find_line], [get_all_lines]
    -- raises "Chip is closed" without a driver call and without any
    change of state, and closing again does nothing and does not raise. *)
Theorem chip_close_then_closed (w : world D) (a : addr) (c : LuaChip) :
  is_chip w a c ->
  exists w1,
    chip_close drv [LUserdata a] w = (Ok [], w1)
    /\ is_chip w1 a {| chip_chip := None |}
    /\ calls_between w w1
         match chip_chip c with Some p => [logged (gpiod_chip_close p)] | None => [] end
    /\ (forall m, m <> Chip_close -> chip_methods drv m a w1 = (Raise ClosedResource, w1))
    /\ chip_close drv [LUserdata a] w1 = (Ok [], w1).
Proof.
  intros H. eexists. split; [apply (chip_close_run _ _ _ H)|].
  match goal with |- is_chip ?w1 _ _ /\ _ =>
    assert (Hc : is_chip w1 a {| chip_chip := None |}) end.
  { destruct c as [[p|]]; cbn; [|exact H].
    unfold is_chip. cbn. apply list_lookup_insert_eq. eapply lookup_lt_Some, H. }
  split; [exact Hc|]. split.
  - unfold calls_between. destruct (chip_chip c); cbn; [reflexivity|now rewrite app_nil_r].
  - split.
    + intros m Hm. now apply closed_chip_raises.
    + now rewrite (chip_close_run _ _ _ Hc).
Qed.

(** ** Line handles *)

(** C7. Releasing a line handle succeeds, hands the line to
    [gpiod_line_release] (only if the handle still has one) and nulls
    it.  After that [get_value] and [set_value] raise "Line is
    released", and a second [release] returns without an error, without
    a driver call and without any change of state. *)
Theorem line_release_then_released (w : world D) (a : addr) (l : LuaLine) :
  is_line w a l ->
  exists w1,
    line_release drv [LUserdata a] w = (Ok [], w1)
    /\ is_line w1 a {| line_line := None; line_chip := line_chip l |}
    /\ calls_between w w1
         match line_line l with Some p => [logged (gpiod_line_release p)] | None => [] end
    /\ line_get_value drv [LUserdata a] w1 = (Raise ReleasedResource, w1)
    /\ (forall v, line_set_value drv [LUserdata a; LInteger v] w1 = (Raise ReleasedResource, w1))
    /\ line_release drv [LUserdata a] w1 = (Ok [], w1).
Proof.
  intros H. eexists. split; [apply (line_release_run _ _ _ H)|].
  match goal with |- is_line ?w1 _ ?l1 /\ _ => assert (Hl : is_line w1 a l1) end.
  { destruct l as [[p|] ch]; cbn; [|exact H].
    unfold is_line. cbn. apply list_lookup_insert_eq. eapply lookup_lt_Some, H. }
  split; [exact Hl|]. split.
  - unfold calls_between. destruct (line_line l); cbn; [reflexivity|now rewrite app_nil_r].
  - repeat split.
    + unfold line_get_value. now enter_line Hl.
    + intros v. unfold line_set_value. now enter_line Hl.
    + now rewrite (line_release_run _ _ _ Hl).
Qed.

(** ** Validity checks and the driver *)


(** ** Line groups *)

(** C1, as amended.  [request_output] reads one default per line of the
    group from the table.  When the table is shorter than the group it
    raises the argument error of [luaL_checkinteger] at the first
    missing entry, before any driver call and with nothing changed:
    nothing is read past the table and no default is made up.  When the
    table has at least as many entries as the group, a longer one
    included, its first [num_lines] entries go to the driver in one
    bulk request, and the call fails with "Failed to request bulk
    output mode" exactly when the driver refuses that request. *)
Theorem bulk_request_output_lengths
  (w : world D) (a : addr) (b : LuaLineBulk)
  (consumer : string) (defaults : list Z) (flags : option Z) :
  is_bulk w a b ->
  let args :=
    [LUserdata a; LString consumer; LTable (map LInteger defaults); opt_integer flags] in
  let num_lines := length (bulk_bulk b) in
  ((length defaults < num_lines)%nat ->
     bulk_request_output drv args w = (Raise (ArgError (-1) "number expected"), w))
  /\ ((num_lines <= length defaults)%nat ->
        bulk_request_output drv args w =
        let c := gpiod_line_request_bulk_output_flags
                   (bulk_bulk b) (c_str consumer) (c_int (default 0 flags))
                   (map c_int (take num_lines defaults)) in
        let '(r, d) := drv _ c (dstate w) in
        (if r <? 0 then Raise RequestFailed_bulk_output else Ok [LBoolean true],
         World (heap w) d (trace w ++ [logged c]))).
Proof.
  intros H args num_lines. split; intros Hlen.
  - now apply (bulk_request_output_short _ _ b).
  - now apply (bulk_request_output_run _ _ b).
Qed.

(** C3, as amended.  [set_values] reads one value per line of the group
    from the table, in order: a table shorter than the group raises the
    argument error of [luaL_checkinteger] before any driver call; a
    table with at least [num_lines] entries, a longer one included, has
    its first [num_lines] entries written, entry [i] for line [i], in
    one driver call.  [get_values] makes one driver call for the whole
    group and returns a table of exactly [num_lines] entries, entry
    [i] being the value read for line [i]. *)
Theorem bulk_values_positional
  (w : world D) (a : addr) (b : LuaLineBulk) (values : list Z) :
  is_bulk w a b ->
  let num_lines := length (bulk_bulk b) in
  ((length values < num_lines)%nat ->
     bulk_set_values drv [LUserdata a; LTable (map LInteger values)] w =
     (Raise (ArgError (-1) "number expected"), w))
  /\ ((num_lines <= length values)%nat ->
        bulk_set_values drv [LUserdata a; LTable (map LInteger values)] w =
        let c := gpiod_line_set_value_bulk
                   (bulk_bulk b) (map c_int (take num_lines values)) in
        let '(r, d) := drv _ c (dstate w) in
        (if r <? 0 then Raise (LuaError "Failed to set bulk GPIO values" [])
         else Ok [LBoolean true],
         World (heap w) d (trace w ++ [logged c])))
  /\ (bulk_get_values drv [LUserdata a] w =
      let c := gpiod_line_get_value_bulk (bulk_bulk b) in
      let '(r, read, d) := drv _ c (dstate w) in
      (if r <? 0 then Raise IOFailure_bulk_read
       else Ok [LTable (map (fun i => LInteger (read i)) (seq 0 num_lines))],
       World (heap w) d (trace w ++ [logged c])))
  /\ (forall read : nat -> Z,
        length (map (fun i => LInteger (read i)) (seq 0 num_lines)) = num_lines
        /\ forall i, (i < num_lines)%nat ->
             map (fun i => LInteger (read i)) (seq 0 num_lines) !! i = Some (LInteger (read i))).
Proof.
  intros H num_lines. repeat split.
  - intros Hlen. now apply (bulk_set_values_short _ _ b).
  - intros Hlen. now apply (bulk_set_values_run _ _ b).
  - now apply (bulk_get_values_run _ _ b).
  - now rewrite length_map, length_seq.
  - intros i Hi. rewrite list_lookup_fmap, lookup_seq_lt by exact Hi. reflexivity.
Qed.

(** C9, as amended.  Releasing a group never raises and changes no
    userdata; it hands the whole group, every line of it in order, to
    [gpiod_line_release_bulk].  The handle keeps no record of that: a
    second release is not skipped but makes the same driver call again,
    on the state the first one left, and so does every later one. *)
Theorem bulk_release_repeats (w : world D) (a : addr) (b : LuaLineBulk) :
  is_bulk w a b ->
  let c := gpiod_line_release_bulk (bulk_bulk b) in
  let released (w : world D) :=
    World (heap w) (snd (drv _ c (dstate w))) (trace w ++ [logged c]) in
  bulk_release drv [LUserdata a] w = (Ok [], released w)
  /\ bulk_release drv [LUserdata a] (released w) = (Ok [], released (released w))
  /\ forall n,
       let wn := Nat.iter n released w in
       is_bulk wn a b
       /\ bulk_release drv [LUserdata a] wn = (Ok [], released wn)
       /\ heap wn = heap w
       /\ trace wn = trace w ++ repeat (logged c) n.
Proof.
  intros H c released.
  assert (Hstep : forall w', is_bulk w' a b ->
            bulk_release drv [LUserdata a] w' = (Ok [], released w') /\ is_bulk (released w') a b).
  { intros w' H'. split; [apply (bulk_release_run _ _ _ H')|exact H']. }
  split; [apply (Hstep _ H)|].
  split; [apply Hstep, (Hstep _ H)|].
  intros n. cbn zeta. induction n as [|n [IHb [IHr [IHh IHt]]]].
  - cbn. split; [exact H|]. split; [apply (Hstep _ H)|]. split; [reflexivity|].
    now rewrite app_nil_r.
  - rewrite Nat.iter_succ.
    split; [apply (Hstep _ IHb)|]. split; [apply Hstep, (Hstep _ IHb)|].
    split; [exact IHh|].
    cbn [released trace]. rewrite IHt, <- app_assoc. f_equal.
    change [logged c] with (repeat (logged c) 1). rewrite <- repeat_app.
    now rewrite Nat.add_1_r.
Qed.

(** ** The controller enumerator *)

(** [next] and [next_noclose] are the same function. *)
Lemma chip_iter_next_eq (args : list lua_value) (w : world D) :
  chip_iter_next drv args w = chip_iter_next_noclose drv args w.
Proof. reflexivity. Qed.

(** One step of an enumerator: nothing on a closed one; otherwise one
    call of [gpiod_chip_iter_next_noclose], and a fresh controller
    handle around the controller it yields, if any. *)
Lemma chip_iter_next_noclose_run (w : world D) a i rest :
  is_iter w a i ->
  chip_iter_next_noclose drv (LUserdata a :: rest) w =
  match iter_iter i with
  | None => (Ok [LNil], w)
  | Some it =>
      let c := gpiod_chip_iter_next_noclose it in
      let '(r, d) := drv _ c (dstate w) in
      match r with
      | None => (Ok [LNil], World (heap w) d (trace w ++ [logged c]))
      | Some chip =>
          (Ok [LUserdata (length (heap w))],
           World (heap w ++ [{| payload := UChip {| chip_chip := Some chip |};
                                metatable := Some GPIOD_CHIP_MT |}])
                 d (trace w ++ [logged c]))
      end
  end.
Proof.
  intros H. unfold chip_iter_next_noclose. enter_iter H.
  destruct (iter_iter i) as [it|]; [|reflexivity].
  unfold bind at 1, call.
  destruct (drv _ (gpiod_chip_iter_next_noclose it) (dstate w)) as [[chip|] d];
    [|reflexivity].
  unfold bind at 1, lua_newuserdata. cbn [heap dstate trace].
  unfold bind at 1. now rewrite setmetatable_fresh.
Qed.

(** C10. On every enumerator, open or closed, [next] and [next_noclose]
    give the same result and the same world, whatever further arguments
    they are passed: both do nothing on a closed enumerator and
    otherwise make the one driver call [gpiod_chip_iter_next_noclose],
    wrapping the controller it yields in a fresh handle. *)
Theorem chip_iter_next_is_next_noclose
  (w : world D) (a : addr) (i : LuaChipIter) (rest : list lua_value) :
  is_iter w a i ->
  chip_iter_next drv (LUserdata a :: rest) w
  = chip_iter_next_noclose drv (LUserdata a :: rest) w
  /\ chip_iter_next_noclose drv (LUserdata a :: rest) w =
     match iter_iter i with
     | None => (Ok [LNil], w)
     | Some it =>
         let c := gpiod_chip_iter_next_noclose it in
         let '(r, d) := drv _ c (dstate w) in
         match r with
         | None => (Ok [LNil], World (heap w) d (trace w ++ [logged c]))
         | Some chip =>
             (Ok [LUserdata (length (heap w))],
              World (heap w ++ [{| payload := UChip {| chip_chip := Some chip |};
                                   metatable := Some GPIOD_CHIP_MT |}])
                    d (trace w ++ [logged c]))
         end
     end.
Proof.
  intros H. split; [apply chip_iter_next_eq|].
  apply (chip_iter_next_noclose_run _ _ _ _ H).
Qed.

(** C4, as amended.  Closing an enumerator succeeds.  An open one is
    handed to [gpiod_chip_iter_free_noclose], once, and its pointer is
    nulled: that call is the only one made and the only change of the
    driver, and the enumerator handle is the only userdata changed.  No
    controller is closed by the binding: a controller handle, those that
    [next] and [next_noclose] yielded among them, keeps its descriptor,
    and no [gpiod_chip_close] is called.  Closing again does nothing.
    After the close, [next] returns nil without an error, a driver call
    or a change of state, however often it is called. *)
Theorem chip_iter_close_then_empty (w : world D) (a : addr) (i : LuaChipIter) :
  is_iter w a i ->
  let w1 :=
    match iter_iter i with
    | Some it =>
        World (<[a := {| payload := UIter {| iter_iter := None |};
                         metatable := Some GPIOD_CHIP_ITER_MT |}]> (heap w))
              (snd (drv _ (gpiod_chip_iter_free_noclose it) (dstate w)))
              (trace w ++ [logged (gpiod_chip_iter_free_noclose it)])
    | None => w
    end in
  chip_iter_close drv [LUserdata a] w = (Ok [], w1)
  /\ is_iter w1 a {| iter_iter := None |}
  /\ (forall a' c, is_chip w a' c -> is_chip w1 a' c)
  /\ (forall a', a' <> a -> heap w1 !! a' = heap w !! a')
  /\ chip_iter_close drv [LUserdata a] w1 = (Ok [], w1)
  /\ (forall n,
        let wn := Nat.iter n (fun w' => snd (chip_iter_next drv [LUserdata a] w')) w1 in
        chip_iter_next drv [LUserdata a] wn = (Ok [LNil], w1)).
Proof.
  intros H w1.
  assert (Hrun : chip_iter_close drv [LUserdata a] w = (Ok [], w1)).
  { rewrite (chip_iter_close_run _ _ _ H). subst w1. cbn zeta.
    destruct (iter_iter i) as [it|]; [|reflexivity].
    now destruct (drv _ (gpiod_chip_iter_free_noclose it) (dstate w)) as [[] d]. }
  assert (Hi : is_iter w1 a {| iter_iter := None |}).
  { subst w1. destruct i as [[p|]]; cbn; [|exact H].
    unfold is_iter. cbn. apply list_lookup_insert_eq. eapply lookup_lt_Some, H. }
  assert (Hother : forall a', a' <> a -> heap w1 !! a' = heap w !! a').
  { intros a' Ha. subst w1. destruct (iter_iter i); cbn; [|reflexivity].
    apply list_lookup_insert_ne. congruence. }
  split; [exact Hrun|]. split; [exact Hi|].
  split.
  { intros a' c Hc. unfold is_chip. rewrite Hother; [exact Hc|].
    intros ->. unfold is_chip, is_iter in *. congruence. }
  split; [exact Hother|].
  split; [now rewrite (chip_iter_close_run _ _ _ Hi)|].
  assert (Hnext : forall w', is_iter w' a {| iter_iter := None |} ->
                    chip_iter_next drv [LUserdata a] w' = (Ok [LNil], w')).
  { intros w' Hw'. rewrite chip_iter_next_eq.
    now rewrite (chip_iter_next_noclose_run _ _ _ _ Hw'). }
  clearbody w1. clear Hrun Hother.
  intros n. cbn zeta.
  induction n as [|n IH]; [apply (Hnext _ Hi)|].
  rewrite Nat.iter_succ, IH. apply (Hnext _ Hi).
Qed.

(** ** [strtoul] on digits *)







(** ** Opening a controller *)

(** What [chip_open] does with any identifier: the name is tried first;
    if it does not resolve and [strtoul] stops at the end of the string,
    the number it returns, cut to an [unsigned int], is tried next. *)
Lemma chip_open_run (w : world D) (s : string) :
  chip_open drv [LString s] w =
  let name := c_str s in
  let block c := {| payload := UChip {| chip_chip := c |};
                    metatable := match c with Some _ => Some GPIOD_CHIP_MT | None => None end |} in
  let by_name := gpiod_chip_open_by_name name in
  let '(r1, d1) := drv _ by_name (dstate w) in
  match r1 with
  | Some c =>
      (Ok [LUserdata (length (heap w))],
       World (heap w ++ [block (Some c)]) d1 (trace w ++ [logged by_name]))
  | None =>
      let '(num, endptr) := strtoul name in
      match endptr with
      | EmptyString =>
          let by_number := gpiod_chip_open_by_number (c_uint num) in
          let '(r2, d2) := drv _ by_number d1 in
          (match r2 with
           | Some _ => Ok [LUserdata (length (heap w))]
           | None => Raise (DeviceNotFound name)
           end,
           World (heap w ++ [block r2]) d2 (trace w ++ [logged by_name; logged by_number]))
      | String _ _ =>
          (Raise (DeviceNotFound name),
           World (heap w ++ [block None]) d1 (trace w ++ [logged by_name]))
      end
  end.
Proof.
  cbn zeta. unfold chip_open. cbn [luaL_checkstring lua_tolstring arg nth Nat.sub].
  unfold bind at 1. cbn [ret].
  unfold bind at 1, lua_newuserdata.
  unfold bind at 1, call. cbn [heap dstate trace].
  destruct (drv _ (gpiod_chip_open_by_name (c_str s)) (dstate w)) as [[c|] d1].
  - unfold bind at 1. rewrite store_fresh.
    unfold bind at 1. cbn [ret]. unfold bind at 1. now rewrite setmetatable_fresh.
  - unfold bind at 1. rewrite store_fresh.
    destruct (strtoul (c_str s)) as [num [|ch endptr]].
    + unfold bind at 1. unfold bind at 1, call. cbn [heap dstate trace].
      destruct (drv _ (gpiod_chip_open_by_number (c_uint num)) d1) as [[c|] d2].
      * unfold bind at 1. rewrite store_fresh. cbn [ret].
        unfold bind at 1. rewrite setmetatable_fresh. cbn [ret].
        now rewrite <- app_assoc.
      * unfold bind at 1. rewrite store_fresh. cbn [ret luaL_error].
        now rewrite <- app_assoc.
    + unfold bind at 1. reflexivity.
Qed.

(** X18. [chip_open] fails exactly when the name does not resolve and either
    [strtoul] stops before the end of the string or the number does not
    resolve. *)
Lemma chip_open_fails_iff (w : world D) (s : string) :
  let name := c_str s in
  let '(by_name, d1) := drv _ (gpiod_chip_open_by_name name) (dstate w) in
  let '(num, endptr) := strtoul name in
  let by_number := fst (drv _ (gpiod_chip_open_by_number (c_uint num)) d1) in
  fst (chip_open drv [LString s] w) = Raise (DeviceNotFound name)
  <-> by_name = None /\ (endptr <> EmptyString \/ by_number = None).
Proof.
  cbn zeta. rewrite chip_open_run. cbn zeta.
  destruct (drv _ (gpiod_chip_open_by_name (c_str s)) (dstate w)) as [[c|] d1].
  - destruct (strtoul (c_str s)) as [num endptr]. cbn.
    split; [discriminate|intros [? _]; discriminate].
  - destruct (strtoul (c_str s)) as [num [|ch endptr]].
    + destruct (drv _ (gpiod_chip_open_by_number (c_uint num)) d1) as [[c|] d2]; cbn.
      * split; [discriminate|intros [_ [?|?]]; congruence].
      * split; [auto|reflexivity].
    + cbn. split; [intros _; split; [reflexivity|left; discriminate]|reflexivity].
Qed.


(** C5. The identifier [""] is not a number, but [strtoul] converts
    nothing in it and leaves [endptr] at its terminator, so the test
    [*endptr == 0] passes: when no controller answers to the empty name,
    [chip_open("")] goes on to open controller number 0 and, if there is
    one, returns a handle on it instead of failing. *)
Theorem chip_open_empty_identifier (w : world D) (c : gpiod_chip) (d1 d2 : D) :
  drv _ (gpiod_chip_open_by_name "") (dstate w) = (None, d1) ->
  drv _ (gpiod_chip_open_by_number 0) d1 = (Some c, d2) ->
  strtoul "" = (0, EmptyString)
  /\ chip_open drv [LString ""] w =
     (Ok [LUserdata (length (heap w))],
      World (heap w ++ [{| payload := UChip {| chip_chip := Some c |};
                           metatable := Some GPIOD_CHIP_MT |}])
            d2
            (trace w ++ [logged (gpiod_chip_open_by_name "");
                         logged (gpiod_chip_open_by_number 0)])).
Proof.
  intros Hname Hnum. split; [reflexivity|].
  rewrite chip_open_run. cbn zeta. cbn [c_str]. rewrite Hname.
  change (strtoul "") with (0, EmptyString). cbn iota beta.
  change (c_uint 0) with 0. now rewrite Hnum.
Qed.

(** ** Waiting for an edge *)




(** * More properties of the binding *)

Lemma bind_raise_at {A B} (m : Lua D A) (k : A -> Lua D B) w e w' :
  m w = (Raise e, w') -> bind m k w = (Raise e, w').
Proof. intros H. unfold bind. now rewrite H. Qed.

(** ** Userdata of the wrong kind *)

Lemma checkudata_wrong (w : world D) a o tname rest :
  heap w !! a = Some o -> metatable o <> Some tname ->
  luaL_checkudata (LUserdata a :: rest) 1 tname w = (Raise (ArgError 1 tname), w).
Proof.
  intros H Hmt. unfold luaL_checkudata. simpl. rewrite H.
  case_decide; [contradiction | reflexivity].
Qed.

Lemma check_chip_wrong (w : world D) a o rest :
  heap w !! a = Some o -> metatable o <> Some GPIOD_CHIP_MT ->
  check_chip (LUserdata a :: rest) w = (Raise (ArgError 1 GPIOD_CHIP_MT), w).
Proof.
  intros H Hmt. unfold check_chip. unfold bind.
  now rewrite (checkudata_wrong _ _ _ _ _ H Hmt).
Qed.

Lemma check_line_wrong (w : world D) a o rest :
  heap w !! a = Some o -> metatable o <> Some GPIOD_LINE_MT ->
  check_line (LUserdata a :: rest) w = (Raise (ArgError 1 GPIOD_LINE_MT), w).
Proof.
  intros H Hmt. unfold check_line. unfold bind.
  now rewrite (checkudata_wrong _ _ _ _ _ H Hmt).
Qed.

Ltac unfold_chip_methods :=
  cbn [chip_methods];
  unfold chip_get_line, chip_get_lines, chip_find_line, chip_get_all_lines,
    chip_name, chip_label, chip_num_lines, chip_close.

Ltac unfold_line_methods :=
  cbn [line_methods];
  unfold line_request_input, line_request_output, line_request_rising_edge_events,
    line_request_falling_edge_events, line_request_both_edges_events,
    line_request_rising_edge_events_flags, line_request_falling_edge_events_flags,
    line_request_both_edges_events_flags, line_event_wait, line_event_read,
    line_event_get_fd, line_get_value, line_set_value, line_offset, line_name,
    line_consumer, line_direction, line_active_state, line_bias, line_is_used,
    line_is_open_drain, line_is_open_source, line_update, line_release.

(** X1. A userdata that does not carry the metatable of a controller
    is refused by every controller method, and one that does not carry
    the metatable of a line by every line method: the call raises the
    argument error of [luaL_checkudata] for argument 1, makes no driver
    call and changes nothing.  This holds for a handle of another kind
    and for a block left without a metatable by a failed constructor. *)
Theorem wrong_userdata_refused (w : world D) (a : addr) (o : object) :
  heap w !! a = Some o ->
  (metatable o <> Some GPIOD_CHIP_MT ->
     forall m, chip_methods drv m a w = (Raise (ArgError 1 GPIOD_CHIP_MT), w))
  /\ (metatable o <> Some GPIOD_LINE_MT ->
        forall m, line_methods drv K m a w = (Raise (ArgError 1 GPIOD_LINE_MT), w)).
Proof.
  intros H. split; intros Hmt m.
  - destruct m; unfold_chip_methods;
      now rewrite (bind_raise_at _ _ _ _ _ (check_chip_wrong _ _ _ _ H Hmt)).
  - destruct m; unfold_line_methods;
      now rewrite (bind_raise_at _ _ _ _ _ (check_line_wrong _ _ _ _ H Hmt)).
Qed.

(** ** Indexing a group *)

Lemma c_uint_small (z : Z) : 0 <= z < 2 ^ 32 -> c_uint z = z.
Proof. intros H. unfold c_uint. now apply Z.mod_small. Qed.

Lemma c_uint_negative (z : Z) : - 2 ^ 32 <= z < 0 -> c_uint z = z + 2 ^ 32.
Proof.
  intros H. unfold c_uint. rewrite <- (Z.mod_add z 1 (2 ^ 32)) by lia.
  rewrite Z.mul_1_l. apply Z.mod_small. lia.
Qed.

Lemma c_uint_period (z : Z) : c_uint (z + 2 ^ 32) = c_uint z.
Proof.
  unfold c_uint. rewrite <- (Z.mul_1_l (2 ^ 32)) at 1. apply Z.mod_add. lia.
Qed.

Lemma bulk_get_line_run (w : world D) a b index :
  is_bulk w a b ->
  bulk_get_line [LUserdata a; LInteger index] w =
  if Z.of_nat (length (bulk_bulk b)) <=? c_uint index
  then (Raise (LuaError "Index out of range" []), w)
  else (Ok [LUserdata (length (heap w))],
        World (heap w ++
               [{| payload := ULine {| line_line := bulk_bulk b !! Z.to_nat (c_uint index);
                                       line_chip := bulk_chip b |};
                   metatable := Some GPIOD_LINE_MT |}])
              (dstate w) (trace w)).
Proof.
  intros H. unfold bulk_get_line. enter_bulk H.
  cbn [luaL_checkinteger check_integer arg nth Nat.sub lua_tointegerx Z.of_nat].
  unfold bind at 1. cbn [ret]. unfold gpiod_line_bulk_num_lines, gpiod_line_bulk_get_line.
  destruct (Z.of_nat (length (bulk_bulk b)) <=? c_uint index); [reflexivity|].
  unfold bind at 1, lua_newuserdata. unfold bind at 1.
  destruct w as [h d t]. cbn [heap dstate trace]. now rewrite setmetatable_fresh.
Qed.

(** X2. [bulk:get_line(index)] takes the index as an [unsigned int].
    An index from 0 below [num_lines] gives a fresh line handle on the
    line at that position of the group, with the group's controller
    pointer, and makes no driver call.  Any other index of the 32-bit
    range, a negative one included, raises "Index out of range" and
    changes nothing.  An index past 32 bits is taken modulo 2^32. *)
Theorem bulk_get_line_bounds (w : world D) (a : addr) (b : LuaLineBulk) (index : Z) :
  is_bulk w a b ->
  let n := Z.of_nat (length (bulk_bulk b)) in
  (0 <= index < n -> index < 2 ^ 32 ->
     exists l,
       bulk_bulk b !! Z.to_nat index = Some l
       /\ bulk_get_line [LUserdata a; LInteger index] w =
          (Ok [LUserdata (length (heap w))],
           World (heap w ++
                  [{| payload := ULine {| line_line := Some l; line_chip := bulk_chip b |};
                      metatable := Some GPIOD_LINE_MT |}])
                 (dstate w) (trace w)))
  /\ (n <= index < 2 ^ 32 \/ n - 2 ^ 32 <= index < 0 ->
        bulk_get_line [LUserdata a; LInteger index] w =
        (Raise (LuaError "Index out of range" []), w))
  /\ bulk_get_line [LUserdata a; LInteger (index + 2 ^ 32)] w
     = bulk_get_line (D := D) [LUserdata a; LInteger index] w.
Proof.
  intros H n. split; [|split].
  - intros Hi Hi32.
    destruct (lookup_lt_is_Some_2 (bulk_bulk b) (Z.to_nat index)) as [l Hl]; [lia|].
    exists l. split; [exact Hl|].
    rewrite (bulk_get_line_run _ _ _ _ H), c_uint_small by lia.
    destruct (Z.leb_spec (Z.of_nat (length (bulk_bulk b))) index); [lia|].
    repeat f_equal. exact Hl.
  - intros Hi. rewrite (bulk_get_line_run _ _ _ _ H).
    destruct Hi as [Hi|Hi].
    + rewrite c_uint_small by lia.
      destruct (Z.leb_spec (Z.of_nat (length (bulk_bulk b))) index); [reflexivity|lia].
    + assert (Hlen : 0 <= n) by lia.
      rewrite c_uint_negative by lia.
      destruct (Z.leb_spec (Z.of_nat (length (bulk_bulk b))) (index + 2 ^ 32));
        [reflexivity|lia].
  - now rewrite !(bulk_get_line_run _ _ _ _ H), c_uint_period.
Qed.

(** ** Deriving lines from a controller *)

Lemma chip_get_line_run (w : world D) a c offset :
  is_chip w a {| chip_chip := Some c |} ->
  chip_get_line drv [LUserdata a; LInteger offset] w =
  let call := gpiod_chip_get_line c (c_uint offset) in
  let '(l, d) := drv _ call (dstate w) in
  (match l with
   | Some _ => Ok [LUserdata (length (heap w))]
   | None => Raise (LuaError "Failed to get GPIO line: %d" [FInt (c_int (c_uint offset))])
   end,
   World (heap w ++
          [{| payload := ULine {| line_line := l; line_chip := Some c |};
              metatable := match l with Some _ => Some GPIOD_LINE_MT | None => None end |}])
         d (trace w ++ [logged call])).
Proof.
  intros H. unfold chip_get_line. enter_chip H.
  cbn [luaL_checkinteger check_integer arg nth Nat.sub lua_tointegerx Z.of_nat].
  unfold bind at 1. cbn [ret chip_or_closed chip_chip].
  unfold bind at 1, lua_newuserdata. unfold bind at 1, call. cbn [heap dstate trace].
  destruct (drv _ (gpiod_chip_get_line c (c_uint offset)) (dstate w)) as [[l|] d].
  - unfold bind at 1. rewrite store_fresh. unfold bind at 1. now rewrite setmetatable_fresh.
  - unfold bind at 1. now rewrite store_fresh.
Qed.

(** X3. [chip:get_line(offset)] on an open controller makes one driver
    call, with the offset cut to an [unsigned int], and touches no
    existing userdata.  When the driver finds the line the result is a
    fresh line handle holding the line and the controller pointer; when
    it does not, the call raises "Failed to get GPIO line" and the block
    it had allocated is left without a metatable, so that it is not a
    line handle. *)
Theorem chip_get_line_result (w : world D) (a : addr) (c : gpiod_chip) (offset : Z) :
  is_chip w a {| chip_chip := Some c |} ->
  let call := gpiod_chip_get_line c (c_uint offset) in
  let found := fst (drv _ call (dstate w)) in
  let r := fst (chip_get_line drv [LUserdata a; LInteger offset] w) in
  let w' := snd (chip_get_line drv [LUserdata a; LInteger offset] w) in
  calls_between w w' [logged call]
  /\ (forall a', (a' < length (heap w))%nat -> heap w' !! a' = heap w !! a')
  /\ match found with
     | Some l =>
         r = Ok [LUserdata (length (heap w))]
         /\ is_line w' (length (heap w)) {| line_line := Some l; line_chip := Some c |}
     | None =>
         r = Raise (LuaError "Failed to get GPIO line: %d" [FInt (c_int (c_uint offset))])
         /\ forall l', ~ is_line w' (length (heap w)) l'
     end.
Proof.
  intros H. cbn zeta. rewrite (chip_get_line_run _ _ _ _ H). cbn zeta.
  destruct (drv _ (gpiod_chip_get_line c (c_uint offset)) (dstate w)) as [[l|] d];
    cbn [fst snd]; (split; [reflexivity|]); split.
  - intros a' Ha. cbn [heap]. now rewrite lookup_app_l.
  - split; [reflexivity|]. unfold is_line. cbn [heap].
    now rewrite list_lookup_middle.
  - intros a' Ha. cbn [heap]. now rewrite lookup_app_l.
  - split; [reflexivity|]. intros l'. unfold is_line. cbn [heap].
    rewrite list_lookup_middle by reflexivity. discriminate.
Qed.

Lemma chip_find_line_run (w : world D) a c name :
  is_chip w a {| chip_chip := Some c |} ->
  chip_find_line drv [LUserdata a; LString name] w =
  let call := gpiod_chip_find_line c (c_str name) in
  let '(l, d) := drv _ call (dstate w) in
  match l with
  | None => (Ok [LNil], World (heap w) d (trace w ++ [logged call]))
  | Some l =>
      (Ok [LUserdata (length (heap w))],
       World (heap w ++
              [{| payload := ULine {| line_line := Some l; line_chip := Some c |};
                  metatable := Some GPIOD_LINE_MT |}])
             d (trace w ++ [logged call]))
  end.
Proof.
  intros H. unfold chip_find_line. enter_chip H.
  cbn [luaL_checkstring lua_tolstring arg nth Nat.sub].
  unfold bind at 1. cbn [ret chip_or_closed chip_chip].
  unfold bind at 1, call.
  destruct (drv _ (gpiod_chip_find_line c (c_str name)) (dstate w)) as [[l|] d];
    [|reflexivity].
  unfold bind at 1, lua_newuserdata. cbn [heap dstate trace].
  unfold bind at 1. now rewrite setmetatable_fresh.
Qed.

(** X4. [chip:find_line(name)] on an open controller never raises.  A
    miss is the result nil, with no userdata allocated or changed; a
    hit is a fresh line handle on the line found.  Either way there is
    exactly one driver call, with the name as a C string. *)
Theorem chip_find_line_result (w : world D) (a : addr) (c : gpiod_chip) (name : string) :
  is_chip w a {| chip_chip := Some c |} ->
  let call := gpiod_chip_find_line c (c_str name) in
  let found := fst (drv _ call (dstate w)) in
  let r := fst (chip_find_line drv [LUserdata a; LString name] w) in
  let w' := snd (chip_find_line drv [LUserdata a; LString name] w) in
  calls_between w w' [logged call]
  /\ match found with
     | None => r = Ok [LNil] /\ heap w' = heap w
     | Some l =>
         r = Ok [LUserdata (length (heap w))]
         /\ is_line w' (length (heap w)) {| line_line := Some l; line_chip := Some c |}
         /\ forall a', (a' < length (heap w))%nat -> heap w' !! a' = heap w !! a'
     end.
Proof.
  intros H. cbn zeta. rewrite (chip_find_line_run _ _ _ _ H). cbn zeta.
  destruct (drv _ (gpiod_chip_find_line c (c_str name)) (dstate w)) as [[l|] d];
    cbn [fst snd]; (split; [reflexivity|]).
  - split; [reflexivity|]. split.
    + unfold is_line. cbn [heap]. now rewrite list_lookup_middle.
    + intros a' Ha. cbn [heap]. now rewrite lookup_app_l.
  - split; reflexivity.
Qed.

(** ** Tables of integers *)

Lemma c_int_small (z : Z) : - 2 ^ 31 <= z < 2 ^ 31 -> c_int z = z.
Proof. intros H. unfold c_int. rewrite Z.mod_small by lia. lia. Qed.

(** What [lua_rawlen] reports is at most the number of entries, and is
    that number when no entry is nil. *)
Lemma rawlen_le_length (tbl : list lua_value) : (getn tbl <= length tbl)%nat.
Proof.
  destruct (getn_border tbl) as [[H0|Hentry] _]; [lia|].
  destruct (Nat.le_gt_cases (getn tbl) (length tbl)) as [Hle|Hgt]; [exact Hle|].
  exfalso. apply Hentry. apply nth_overflow. lia.
Qed.

Lemma rawlen_no_nil (tbl : list lua_value) :
  Forall (fun v => v <> LNil) tbl -> getn tbl = length tbl.
Proof.
  intros Hall. pose proof (rawlen_le_length tbl) as Hle.
  destruct (getn_border tbl) as [_ Hnext].
  destruct (decide (getn tbl = length tbl)) as [E|Hne]; [exact E|].
  exfalso. destruct (lookup_lt_is_Some_2 tbl (getn tbl)) as [v Hv]; [lia|].
  rewrite nth_lookup, Hv in Hnext. cbn in Hnext.
  rewrite Forall_lookup in Hall. now apply (Hall _ _ Hv).
Qed.

(** X5. [chip:get_lines(offsets)] on an open controller reads the
    entries of the table up to the length [lua_rawlen] reports, which
    is the whole table when no entry is nil.  When each of them
    converts to an integer (an integer, a float with an integer value,
    a string that reads as one of the two), the offsets go to the
    driver in one call, in the order of the table and with duplicates
    kept, an empty table included; the result is a fresh group handle
    holding the lines the driver filled in and the controller pointer,
    or the error "Failed to get GPIO line bulk" when the driver
    refuses.  When one of them does not convert, the call raises the
    argument error of [luaL_checkinteger] for the first such entry,
    before any driver call and with nothing allocated. *)
Theorem chip_get_lines_forwards
  (w : world D) (a : addr) (c : gpiod_chip) (tbl : list lua_value) :
  is_chip w a {| chip_chip := Some c |} ->
  lua_rawlen tbl < 2 ^ 31 ->
  (forall zs,
     Forall2 (fun v z => lua_tointegerx v = Some z) (take (Z.to_nat (lua_rawlen tbl)) tbl) zs ->
     chip_get_lines drv [LUserdata a; LTable tbl] w =
     let call := gpiod_chip_get_lines c (map c_uint zs) in
     let '(r, lines, d) := drv _ call (dstate w) in
     (if r <? 0 then Raise (LuaError "Failed to get GPIO line bulk" [])
      else Ok [LUserdata (length (heap w))],
      World (heap w ++
             [{| payload := UBulk {| bulk_bulk := lines; bulk_chip := Some c |};
                 metatable := if r <? 0 then None else Some GPIOD_LINE_BULK_MT |}])
            d (trace w ++ [logged call])))
  /\ (forall i,
        (i < Z.to_nat (lua_rawlen tbl))%nat ->
        (forall j, (j < i)%nat -> lua_tointegerx (default LNil (tbl !! j)) <> None) ->
        lua_tointegerx (default LNil (tbl !! i)) = None ->
        chip_get_lines drv [LUserdata a; LTable tbl] w =
        (Raise (ArgError (-1) (if lua_isnumber (default LNil (tbl !! i))
                               then "number has no integer representation"
                               else "number expected")), w))
  /\ (Forall (fun v => v <> LNil) tbl -> Z.to_nat (lua_rawlen tbl) = length tbl).
Proof.
  intros H Hlen.
  assert (Hn : Z.to_nat (c_int (lua_rawlen tbl)) = getn tbl).
  { rewrite c_int_small by (unfold lua_rawlen in *; lia). apply Nat2Z.id. }
  assert (Hn' : Z.to_nat (lua_rawlen tbl) = getn tbl) by apply Nat2Z.id.
  rewrite Hn'. split; [|split].
  - intros zs Hconv. unfold chip_get_lines. enter_chip H.
    cbn [check_table arg nth Nat.sub]. unfold bind at 1. cbn [ret chip_or_closed chip_chip].
    rewrite Hn. unfold bind at 1.
    rewrite (for_each_converted c_uint tbl zs 0 (getn tbl) w Hconv).
    2:{ rewrite <- (Forall2_length _ _ _ Hconv), length_take.
        pose proof (rawlen_le_length tbl). lia. }
    unfold bind at 1, lua_newuserdata. unfold bind at 1, call. cbn [heap dstate trace].
    destruct (drv _ (gpiod_chip_get_lines c (map c_uint zs)) (dstate w)) as [[r lines] d].
    unfold bind at 1. rewrite store_fresh.
    destruct (r <? 0); [reflexivity|].
    unfold bind at 1. now rewrite setmetatable_fresh.
  - intros i Hi Hgood Hbad. unfold chip_get_lines. enter_chip H.
    cbn [check_table arg nth Nat.sub]. unfold bind at 1. cbn [ret chip_or_closed chip_chip].
    rewrite Hn. unfold bind at 1.
    now rewrite (for_each_first_bad c_uint tbl 0 (getn tbl) i w ltac:(lia) Hgood Hbad).
  - apply rawlen_no_nil.
Qed.

(** X6. [set_values] and [request_output] of a group reach the driver
    only if each of the first [num_lines] entries of the table converts
    to an integer.  The first entry among them that does not raises the
    argument error of [luaL_checkinteger], with no driver call and
    nothing changed: "number expected" for a missing entry, a nil, a
    boolean, a table or a string that is no numeral, and "number has no
    integer representation" for a float with a fraction or a string
    that reads as one. *)
Theorem bulk_tables_need_integers
  (w : world D) (a : addr) (b : LuaLineBulk) (tbl : list lua_value) (i : nat) :
  is_bulk w a b ->
  (i < length (bulk_bulk b))%nat ->
  (forall j, (j < i)%nat -> lua_tointegerx (default LNil (tbl !! j)) <> None) ->
  lua_tointegerx (default LNil (tbl !! i)) = None ->
  let e := ArgError (-1) (if lua_isnumber (default LNil (tbl !! i))
                          then "number has no integer representation"
                          else "number expected") in
  bulk_set_values drv [LUserdata a; LTable tbl] w = (Raise e, w)
  /\ forall consumer flags,
       bulk_request_output drv
         [LUserdata a; LString consumer; LTable tbl; opt_integer flags] w
       = (Raise e, w).
Proof.
  intros H Hi Hgood Hbad e.
  apply (bulk_tables_loop_raises _ _ _ _ _ H).
  apply for_each_first_bad; [lia|exact Hgood|exact Hbad].
Qed.

(** ** Arguments are checked before the handle *)


(** ** Live line handles *)

Ltac run_call :=
  unfold bind, call; cbn [heap dstate trace];
  match goal with |- context [drv ?R ?c ?d] => destruct (drv R c d) as [r d'] eqn:Hdrv end.

(** X8. A line method that reports a status -- the eight requests,
    [get_value], [set_value], [event_get_fd], [update] -- makes, on a
    line handle that is not released, exactly one driver call and
    changes no userdata.  It raises exactly when the driver answers a
    negative number; otherwise [get_value] and [event_get_fd] return
    the driver's number as it is and the others return true. *)
Theorem line_status_from_driver
  (w : world D) (a : addr) (l : gpiod_line) (ch : option gpiod_chip)
  (m : line_method) (c : drv_call Z) :
  is_line w a {| line_line := Some l; line_chip := ch |} ->
  line_status_call m l = Some c ->
  let r := fst (drv _ c (dstate w)) in
  snd (line_methods drv K m a w)
  = World (heap w) (snd (drv _ c (dstate w))) (trace w ++ [logged c])
  /\ (r < 0 -> exists msg, fst (line_methods drv K m a w) = Raise (LuaError msg []))
  /\ (0 <= r ->
        fst (line_methods drv K m a w) =
        Ok [match m with
            | Line_get_value | Line_event_get_fd => LInteger r
            | _ => LBoolean true
            end]).
Proof.
  intros H Hc. cbn zeta.
  destruct m; try discriminate Hc; cbn [line_status_call] in Hc;
    injection Hc as <-;
    match goal with |- context [drv ?R ?c ?d] => destruct (drv R c d) as [r d'] eqn:Hdrv end;
    unfold_line_methods; enter_line H;
    try (destruct flags as [f|]);
    cbn [luaL_checkstring lua_tolstring luaL_checkinteger luaL_optinteger check_integer lua_tointegerx
         opt_integer arg nth Nat.sub Z.of_nat default from_option id] in *;
    cbn [line_or_released line_line];
    unfold bind, call, ret, luaL_error; cbn [heap dstate trace]; rewrite Hdrv;
    cbn [fst snd];
    (split; [now destruct (r <? 0)|]);
    (split; intros Hr;
      [ replace (r <? 0) with true by (symmetry; apply Z.ltb_lt; lia); eauto
      | replace (r <? 0) with false by (symmetry; apply Z.ltb_ge; lia); reflexivity ]).
Qed.


(** ** What a close or a release leaves alone *)

(** X10. Closing a controller, releasing a line and releasing a group
    change no userdata but, for the first two, the handle they are
    called on.  So a line handle derived from a controller keeps its
    pointer when the controller is closed, a second handle on a line
    keeps its pointer when the first is released, and the line handles
    taken from a group keep theirs when the group is released. *)
Theorem close_and_release_touch_only_self
  (w : world D) (a a' : addr) (o : object) :
  heap w !! a' = Some o ->
  a' <> a ->
  (forall c, is_chip w a c ->
     heap (snd (chip_close drv [LUserdata a] w)) !! a' = Some o)
  /\ (forall l, is_line w a l ->
        heap (snd (line_release drv [LUserdata a] w)) !! a' = Some o)
  /\ (forall b, is_bulk w a b ->
        heap (snd (bulk_release drv [LUserdata a] w)) = heap w).
Proof.
  intros Ho Hne. repeat split.
  - intros c H. rewrite (chip_close_run _ _ _ H). cbn [snd].
    destruct (chip_chip c); cbn [heap]; [|exact Ho].
    now rewrite list_lookup_insert_ne by congruence.
  - intros l H. rewrite (line_release_run _ _ _ H). cbn [snd].
    destruct (line_line l); cbn [heap]; [|exact Ho].
    now rewrite list_lookup_insert_ne by congruence.
  - intros b H. now rewrite (bulk_release_run _ _ _ H).
Qed.

(** X11. A line outlives its controller in the binding: after
    [chip:get_line] has returned a line handle and the controller has
    been closed, the line handle still holds its pointer, and
    [line:get_value()] on it raises neither "Chip is closed" nor "Line
    is released" but calls [gpiod_line_get_value] with that pointer. *)
Theorem line_outlives_closed_chip
  (w : world D) (a : addr) (c : gpiod_chip) (offset : Z) (l : gpiod_line) (d1 : D) :
  is_chip w a {| chip_chip := Some c |} ->
  drv _ (gpiod_chip_get_line c (c_uint offset)) (dstate w) = (Some l, d1) ->
  let line := length (heap w) in
  let w1 := snd (chip_get_line drv [LUserdata a; LInteger offset] w) in
  let w2 := snd (chip_close drv [LUserdata a] w1) in
  fst (chip_get_line drv [LUserdata a; LInteger offset] w) = Ok [LUserdata line]
  /\ is_chip w2 a {| chip_chip := None |}
  /\ is_line w2 line {| line_line := Some l; line_chip := Some c |}
  /\ calls_between w w2 [logged (gpiod_chip_get_line c (c_uint offset));
                         logged (gpiod_chip_close c)]
  /\ calls_between w2 (snd (line_get_value drv [LUserdata line] w2))
       [logged (gpiod_line_get_value l)]
  /\ fst (line_get_value drv [LUserdata line] w2) <> Raise ClosedResource
  /\ fst (line_get_value drv [LUserdata line] w2) <> Raise ReleasedResource.
Proof.
  intros H Hget. cbn zeta.
  rewrite (chip_get_line_run _ _ _ _ H). cbn zeta. rewrite Hget. cbn [fst snd].
  set (w1 := World _ d1 _).
  assert (Hlt : (a < length (heap w))%nat) by (eapply lookup_lt_Some, H).
  assert (H1 : is_chip w1 a {| chip_chip := Some c |}).
  { unfold is_chip, w1. cbn [heap]. now rewrite lookup_app_l. }
  rewrite (chip_close_run _ _ _ H1). cbn [snd chip_chip].
  set (w2 := World _ _ _).
  assert (H2 : is_line w2 (length (heap w)) {| line_line := Some l; line_chip := Some c |}).
  { unfold is_line, w2, w1. cbn [heap].
    rewrite list_lookup_insert_ne by lia. now rewrite list_lookup_middle. }
  split; [reflexivity|]. split.
  { unfold is_chip, w2. cbn [heap]. apply list_lookup_insert_eq.
    unfold w1. cbn [heap]. rewrite length_app. lia. }
  split; [exact H2|]. split.
  { unfold calls_between, w2, w1. cbn [trace]. now rewrite <- app_assoc. }
  unfold line_get_value. enter_line H2. cbn [line_or_released line_line].
  run_call. destruct (r <? 0); (split; [reflexivity|]); split; discriminate.
Qed.

(** ** Edge events *)


Lemma check_event_ok (w : world D) a e rest :
  is_event w a e -> check_event (LUserdata a :: rest) w = (Ok (a, e), w).
Proof.
  intros H. unfold check_event.
  now rewrite (bind_ok _ _ _ _ _ (checkudata_ok _ _ _ _ _ H)).
Qed.

(** X13. [line:event_read()] on a line that is not released makes one
    driver call.  When the driver fails, it raises "Failed to read
    event" and the block it had allocated is no event handle.  When
    the driver succeeds, the result is a fresh event handle holding
    the event read; [event_type] and [timestamp] on it make no driver
    call and change nothing, and report that event: its kind by name,
    and its time as seconds plus nanoseconds over 10^9. *)
Theorem event_read_then_inspect
  (w : world D) (a : addr) (l : gpiod_line) (ch : option gpiod_chip)
  (r : Z) (ev : gpiod_line_event) (d1 : D) :
  is_line w a {| line_line := Some l; line_chip := ch |} ->
  drv _ (gpiod_line_event_read l) (dstate w) = (r, ev, d1) ->
  let event := length (heap w) in
  let w1 := snd (line_event_read drv [LUserdata a] w) in
  calls_between w w1 [logged (gpiod_line_event_read l)]
  /\ (r < 0 ->
        fst (line_event_read drv [LUserdata a] w) = Raise (LuaError "Failed to read event" [])
        /\ forall e, ~ is_event w1 event e)
  /\ (0 <= r ->
        fst (line_event_read drv [LUserdata a] w) = Ok [LUserdata event]
        /\ is_event w1 event {| event_event := ev |}
        /\ event_event_type K [LUserdata event] w1 =
           (Ok [LString (if event_type ev =? GPIOD_LINE_EVENT_RISING_EDGE K
                         then "rising_edge"
                         else if event_type ev =? GPIOD_LINE_EVENT_FALLING_EDGE K
                              then "falling_edge"
                              else "unknown")], w1)
        /\ event_timestamp [LUserdata event] w1 =
           (Ok [LNumber (long_to_double (tv_sec (ts ev))
                         + long_to_double (tv_nsec (ts ev)) / 1000000000)%float], w1)).
Proof.
  intros H Hread. cbn zeta.
  assert (Hrun : line_event_read drv [LUserdata a] w =
                 (if r <? 0 then Raise (LuaError "Failed to read event" [])
                  else Ok [LUserdata (length (heap w))],
                  World (heap w ++
                         [{| payload := UEvent {| event_event := ev |};
                             metatable := if r <? 0 then None
                                          else Some GPIOD_LINE_EVENT_MT |}])
                        d1 (trace w ++ [logged (gpiod_line_event_read l)]))).
  { unfold line_event_read. enter_line H. cbn [line_or_released line_line].
    unfold bind at 1, lua_newuserdata. unfold bind at 1, call. cbn [heap dstate trace].
    rewrite Hread. unfold bind at 1. rewrite store_fresh.
    destruct (r <? 0); [reflexivity|].
    unfold bind at 1. now rewrite setmetatable_fresh. }
  rewrite Hrun. cbn [fst snd]. split; [reflexivity|]. split; intros Hr.
  - replace (r <? 0) with true by (symmetry; apply Z.ltb_lt; lia).
    split; [reflexivity|]. intros e. unfold is_event. cbn [heap].
    rewrite list_lookup_middle by reflexivity. discriminate.
  - replace (r <? 0) with false by (symmetry; apply Z.ltb_ge; lia).
    set (w1 := World _ d1 _).
    assert (He : is_event w1 (length (heap w)) {| event_event := ev |}).
    { unfold is_event, w1. cbn [heap]. now rewrite list_lookup_middle. }
    split; [reflexivity|]. split; [exact He|]. split.
    + unfold event_event_type.
      rewrite (bind_ok _ _ _ _ _ (check_event_ok _ _ _ _ He)). cbn [event_event].
      now repeat match goal with |- context [if ?b then _ else _] => destruct b end.
    + unfold event_timestamp.
      now rewrite (bind_ok _ _ _ _ _ (check_event_ok _ _ _ _ He)).
Qed.

(** ** Creating an enumerator *)

Lemma gpiod_chip_iter_run (args : list lua_value) (w : world D) :
  gpiod_chip_iter drv args w =
  let '(it, d) := drv _ gpiod_chip_iter_new (dstate w) in
  (match it with Some _ => Ok [LUserdata (length (heap w))] | None => Ok [LNil] end,
   World (heap w ++
          [{| payload := UIter {| iter_iter := it |};
              metatable := match it with
                           | Some _ => Some GPIOD_CHIP_ITER_MT
                           | None => None
                           end |}])
         d (trace w ++ [logged gpiod_chip_iter_new])).
Proof.
  unfold gpiod_chip_iter.
  unfold bind at 1, lua_newuserdata. unfold bind at 1, call. cbn [heap dstate trace].
  destruct (drv _ gpiod_chip_iter_new (dstate w)) as [[p|] d].
  - unfold bind at 1. rewrite store_fresh. unfold bind at 1. now rewrite setmetatable_fresh.
  - unfold bind at 1. now rewrite store_fresh.
Qed.

(** X14. [gpiod.chip_iter()] never raises and ignores its arguments.
    It makes one driver call; when the driver gives no iterator the
    result is nil and the block allocated is no enumerator handle,
    otherwise the result is a fresh enumerator handle holding the
    iterator.  No existing userdata is touched. *)
Theorem gpiod_chip_iter_result (args : list lua_value) (w : world D) :
  let it := fst (drv _ gpiod_chip_iter_new (dstate w)) in
  let r := fst (gpiod_chip_iter drv args w) in
  let w' := snd (gpiod_chip_iter drv args w) in
  calls_between w w' [logged gpiod_chip_iter_new]
  /\ (forall a', (a' < length (heap w))%nat -> heap w' !! a' = heap w !! a')
  /\ match it with
     | Some p =>
         r = Ok [LUserdata (length (heap w))]
         /\ is_iter w' (length (heap w)) {| iter_iter := Some p |}
     | None =>
         r = Ok [LNil] /\ forall i, ~ is_iter w' (length (heap w)) i
     end.
Proof.
  cbn zeta. rewrite gpiod_chip_iter_run. cbn zeta.
  destruct (drv _ gpiod_chip_iter_new (dstate w)) as [[p|] d]; cbn [fst snd];
    (split; [reflexivity|]); split.
  - intros a' Ha. cbn [heap]. now rewrite lookup_app_l.
  - split; [reflexivity|]. unfold is_iter. cbn [heap]. now rewrite list_lookup_middle.
  - intros a' Ha. cbn [heap]. now rewrite lookup_app_l.
  - split; [reflexivity|]. intros i. unfold is_iter. cbn [heap].
    rewrite list_lookup_middle by reflexivity. discriminate.
Qed.

(** ** Finalizers *)



(** ** Identifiers with a zero byte *)

Lemma c_str_idempotent (s : string) : c_str (c_str s) = c_str s.
Proof.
  induction s as [|ch s IH]; [reflexivity|].
  cbn [c_str]. destruct (Ascii.eqb ch zero) eqn:Hz; [reflexivity|].
  cbn [c_str]. now rewrite Hz, IH.
Qed.

(** X16. [chip_open] sees its identifier as a C string: what follows
    the first zero byte of the Lua string plays no part, neither in the
    name tried, nor in the number, nor in the error message. *)
Theorem chip_open_cuts_at_nul (w : world D) (s : string) :
  chip_open drv [LString s] w = chip_open drv [LString (c_str s)] w.
Proof. now rewrite !chip_open_run, c_str_idempotent. Qed.

(** ** All the lines of a controller *)

(** X17. [chip:get_all_lines()] on an open controller makes one driver
    call.  When the driver fails it raises "Failed to get all GPIO
    lines" and leaves no group handle; when it succeeds the result is a
    fresh group handle on the lines the driver filled in, and
    [num_lines] of that handle is their number, computed from the
    handle alone. *)
Theorem chip_get_all_lines_then_count
  (w : world D) (a : addr) (c : gpiod_chip) (r : Z) (lines : gpiod_line_bulk) (d1 : D) :
  is_chip w a {| chip_chip := Some c |} ->
  drv _ (gpiod_chip_get_all_lines c) (dstate w) = (r, lines, d1) ->
  let group := length (heap w) in
  let w1 := snd (chip_get_all_lines drv [LUserdata a] w) in
  calls_between w w1 [logged (gpiod_chip_get_all_lines c)]
  /\ (r < 0 ->
        fst (chip_get_all_lines drv [LUserdata a] w)
        = Raise (LuaError "Failed to get all GPIO lines" [])
        /\ forall b, ~ is_bulk w1 group b)
  /\ (0 <= r ->
        fst (chip_get_all_lines drv [LUserdata a] w) = Ok [LUserdata group]
        /\ is_bulk w1 group {| bulk_bulk := lines; bulk_chip := Some c |}
        /\ bulk_num_lines [LUserdata group] w1
           = (Ok [LInteger (Z.of_nat (length lines))], w1)).
Proof.
  intros H Hall. cbn zeta.
  assert (Hrun : chip_get_all_lines drv [LUserdata a] w =
                 (if r <? 0 then Raise (LuaError "Failed to get all GPIO lines" [])
                  else Ok [LUserdata (length (heap w))],
                  World (heap w ++
                         [{| payload := UBulk {| bulk_bulk := lines; bulk_chip := Some c |};
                             metatable := if r <? 0 then None
                                          else Some GPIOD_LINE_BULK_MT |}])
                        d1 (trace w ++ [logged (gpiod_chip_get_all_lines c)]))).
  { unfold chip_get_all_lines. enter_chip H. cbn [chip_or_closed chip_chip].
    unfold bind at 1, lua_newuserdata. unfold bind at 1, call. cbn [heap dstate trace].
    rewrite Hall. unfold bind at 1. rewrite store_fresh.
    destruct (r <? 0); [reflexivity|].
    unfold bind at 1. now rewrite setmetatable_fresh. }
  rewrite Hrun. cbn [fst snd]. split; [reflexivity|]. split; intros Hr.
  - replace (r <? 0) with true by (symmetry; apply Z.ltb_lt; lia).
    split; [reflexivity|]. intros b. unfold is_bulk. cbn [heap].
    rewrite list_lookup_middle by reflexivity. discriminate.
  - replace (r <? 0) with false by (symmetry; apply Z.ltb_ge; lia).
    set (w1 := World _ d1 _).
    assert (Hb : is_bulk w1 (length (heap w)) {| bulk_bulk := lines; bulk_chip := Some c |}).
    { unfold is_bulk, w1. cbn [heap]. now rewrite list_lookup_middle. }
    split; [reflexivity|]. split; [exact Hb|].
    unfold bulk_num_lines. now enter_bulk Hb.
Qed.

(** ** The handle [chip_open] returns *)

(** X21. Whatever the identifier, [chip_open] touches no existing
    userdata.  When it returns, the result is a fresh controller handle
    holding an open descriptor; when it raises, the error is "Failed to
    open GPIO chip" with the identifier, and the block it had allocated
    has no metatable, so that no method accepts it. *)
Theorem chip_open_result (w : world D) (s : string) :
  let r := fst (chip_open drv [LString s] w) in
  let w' := snd (chip_open drv [LString s] w) in
  (forall a', (a' < length (heap w))%nat -> heap w' !! a' = heap w !! a')
  /\ match r with
     | Ok vs =>
         vs = [LUserdata (length (heap w))]
         /\ exists c, is_chip w' (length (heap w)) {| chip_chip := Some c |}
     | Raise e =>
         e = DeviceNotFound (c_str s)
         /\ exists o, heap w' !! length (heap w) = Some o /\ metatable o = None
     end.
Proof.
  cbn zeta. rewrite chip_open_run. cbn zeta.
  destruct (drv _ (gpiod_chip_open_by_name (c_str s)) (dstate w)) as [[c|] d1].
  - cbn [fst snd heap]. split; [intros a' Ha; now rewrite lookup_app_l|].
    split; [reflexivity|]. exists c. unfold is_chip. cbn [heap].
    now rewrite list_lookup_middle.
  - destruct (strtoul (c_str s)) as [num [|ch endptr]].
    + destruct (drv _ (gpiod_chip_open_by_number (c_uint num)) d1) as [[c|] d2];
        cbn [fst snd heap]; (split; [intros a' Ha; now rewrite lookup_app_l|]).
      * split; [reflexivity|]. exists c. unfold is_chip. cbn [heap].
        now rewrite list_lookup_middle.
      * split; [reflexivity|]. eexists. split; [now apply list_lookup_middle|reflexivity].
    + cbn [fst snd heap]. split; [intros a' Ha; now rewrite lookup_app_l|].
      split; [reflexivity|]. eexists. split; [now apply list_lookup_middle|reflexivity].
Qed.

End Properties.

(** * The properties on the simulated host *)

Import Sim Scenario.
#[local] Existing Instance LuaLib.lua.

(** ** Mismatched lengths *)

(** C1 fails as stated: on a group of two lines, [request_output] with
    three defaults does not fail.  The request is made with the first
    two and the third is dropped. *)
Lemma bulk_request_output_truncates :
  is_bulk group_world 1%nat {| bulk_bulk := [0; 1]%nat; bulk_chip := Some 0%nat |}
  /\ length [1; 0; 1] <> length [0; 1]%nat
  /\ bulk_request_output sim_driver
       [LUserdata 1%nat; LString "app"; LTable [LInteger 1; LInteger 0; LInteger 1]]
       group_world
     = (Ok [LBoolean true],
        World (heap group_world)
              (request_all host [0; 1]%nat true [1; 0])
              (trace group_world ++
               [logged (gpiod_line_request_bulk_output_flags [0; 1]%nat "app" 0 [1; 0])])).
Proof. split; [reflexivity|]. split; [discriminate|]. reflexivity. Qed.

(** C3 fails as stated: on a group of two output lines, [set_values]
    with three values does not fail.  The first two are written and the
    third is dropped. *)
Lemma bulk_set_values_truncates :
  is_bulk output_group_world 1%nat {| bulk_bulk := [0; 1]%nat; bulk_chip := Some 0%nat |}
  /\ length [1; 1; 1] <> length [0; 1]%nat
  /\ fst (bulk_set_values sim_driver
            [LUserdata 1%nat; LTable [LInteger 1; LInteger 1; LInteger 1]]
            output_group_world)
     = Ok [LBoolean true]
  /\ calls_between output_group_world
       (snd (bulk_set_values sim_driver
               [LUserdata 1%nat; LTable [LInteger 1; LInteger 1; LInteger 1]]
               output_group_world))
       [logged (gpiod_line_set_value_bulk [0; 1]%nat [1; 1])].
Proof.
  split; [reflexivity|]. split; [discriminate|]. split; reflexivity.
Qed.

(** ** A released group *)


(** ** Instances *)

Lemma chip_close_then_closed_witness :
  is_chip chip_world 0%nat {| chip_chip := Some 0%nat |}
  /\ exists w1,
       chip_close sim_driver [LUserdata 0%nat] chip_world = (Ok [], w1)
       /\ is_chip w1 0%nat {| chip_chip := None |}
       /\ calls_between chip_world w1 [logged (gpiod_chip_close 0%nat)]
       /\ (forall m, m <> Chip_close ->
             chip_methods sim_driver m 0%nat w1 = (Raise ClosedResource, w1))
       /\ chip_close sim_driver [LUserdata 0%nat] w1 = (Ok [], w1).
Proof.
  split; [reflexivity|].
  apply (chip_close_then_closed sim_driver chip_world 0%nat {| chip_chip := Some 0%nat |}).
  reflexivity.
Defined.

Lemma line_release_then_released_witness :
  is_line line_world 1%nat {| line_line := Some 2%nat; line_chip := Some 0%nat |}
  /\ exists w1,
       line_release sim_driver [LUserdata 1%nat] line_world = (Ok [], w1)
       /\ is_line w1 1%nat {| line_line := None; line_chip := Some 0%nat |}
       /\ calls_between line_world w1 [logged (gpiod_line_release 2%nat)]
       /\ line_get_value sim_driver [LUserdata 1%nat] w1 = (Raise ReleasedResource, w1)
       /\ (forall v, line_set_value sim_driver [LUserdata 1%nat; LInteger v] w1
                     = (Raise ReleasedResource, w1))
       /\ line_release sim_driver [LUserdata 1%nat] w1 = (Ok [], w1).
Proof.
  split; [reflexivity|].
  apply (line_release_then_released sim_driver line_world 1%nat
           {| line_line := Some 2%nat; line_chip := Some 0%nat |}).
  reflexivity.
Defined.


Lemma bulk_request_output_lengths_witness :
  is_bulk group_world 1%nat {| bulk_bulk := [0; 1]%nat; bulk_chip := Some 0%nat |}
  /\ bulk_request_output sim_driver
       [LUserdata 1%nat; LString "app"; LTable [LInteger 1]; LNil] group_world
     = (Raise (ArgError (-1) "number expected"), group_world).
Proof.
  split; [reflexivity|].
  apply (bulk_request_output_lengths sim_driver group_world 1%nat
           {| bulk_bulk := [0; 1]%nat; bulk_chip := Some 0%nat |} "app" [1] None eq_refl).
  cbn. lia.
Defined.

Lemma bulk_values_positional_witness :
  is_bulk output_group_world 1%nat {| bulk_bulk := [0; 1]%nat; bulk_chip := Some 0%nat |}
  /\ bulk_set_values sim_driver [LUserdata 1%nat; LTable [LInteger 1]] output_group_world
     = (Raise (ArgError (-1) "number expected"), output_group_world).
Proof.
  split; [reflexivity|].
  apply (bulk_values_positional sim_driver output_group_world 1%nat
           {| bulk_bulk := [0; 1]%nat; bulk_chip := Some 0%nat |} [1] eq_refl).
  cbn. lia.
Defined.

(** C9 fails as stated: the second release of a group is not a no-op.
    It makes the driver call of the first one again, and so releases a
    line of the group that was requested again in between.  Here the
    group of the lines 0 and 1 is requested and released, line 0 is
    then requested as output through a line handle taken from the group
    and can be written; after a second [release] of the group the same
    write fails. *)
Lemma second_release_reaches_driver :
  is_bulk rerequested_world 1%nat {| bulk_bulk := [0; 1]%nat; bulk_chip := Some 0%nat |}
  /\ is_line rerequested_world 2%nat {| line_line := Some 0%nat; line_chip := Some 0%nat |}
  /\ trace rerequested_world
     = [logged (gpiod_chip_open_by_name "gpiochip0");
        logged (gpiod_chip_get_lines 0%nat [0; 1]);
        logged (gpiod_line_request_bulk_input_flags [0; 1]%nat "app" 0);
        logged (gpiod_line_release_bulk [0; 1]%nat);
        logged (gpiod_line_request_output_flags 0%nat "led" 0 1)]
  /\ fst (line_set_value sim_driver [LUserdata 2%nat; LInteger 0] rerequested_world)
     = Ok [LBoolean true]
  /\ fst (bulk_release sim_driver [LUserdata 1%nat] rerequested_world) = Ok []
  /\ calls_between rerequested_world
       (snd (bulk_release sim_driver [LUserdata 1%nat] rerequested_world))
       [logged (gpiod_line_release_bulk [0; 1]%nat)]
  /\ dstate (snd (bulk_release sim_driver [LUserdata 1%nat] rerequested_world))
     <> dstate rerequested_world
  /\ fst (line_set_value sim_driver [LUserdata 2%nat; LInteger 0]
            (snd (bulk_release sim_driver [LUserdata 1%nat] rerequested_world)))
     = Raise (LuaError "Failed to set GPIO value" []).
Proof.
  split; [reflexivity|]. split; [reflexivity|]. split; [reflexivity|].
  split; [reflexivity|]. split; [reflexivity|]. split; [reflexivity|].
  split; [discriminate|]. reflexivity.
Qed.

Lemma bulk_release_repeats_witness :
  is_bulk output_group_world 1%nat {| bulk_bulk := [0; 1]%nat; bulk_chip := Some 0%nat |}
  /\ let c := gpiod_line_release_bulk [0; 1]%nat in
     let released (w : world sim) :=
       World (heap w) (snd (sim_driver _ c (dstate w))) (trace w ++ [logged c]) in
     bulk_release sim_driver [LUserdata 1%nat] output_group_world
     = (Ok [], released output_group_world)
     /\ bulk_release sim_driver [LUserdata 1%nat] (released output_group_world)
        = (Ok [], released (released output_group_world))
     /\ forall n,
          let wn := Nat.iter n released output_group_world in
          is_bulk wn 1%nat {| bulk_bulk := [0; 1]%nat; bulk_chip := Some 0%nat |}
          /\ bulk_release sim_driver [LUserdata 1%nat] wn = (Ok [], released wn)
          /\ heap wn = heap output_group_world
          /\ trace wn = trace output_group_world ++ repeat (logged c) n.
Proof.
  split; [reflexivity|].
  apply (bulk_release_repeats sim_driver output_group_world 1%nat
           {| bulk_bulk := [0; 1]%nat; bulk_chip := Some 0%nat |} eq_refl).
Defined.

(** On the simulated host a second release leaves the lines as the
    first one left them, when nobody requested them in between; it is
    a driver call all the same. *)
Example bulk_release_twice :
  let w1 := snd (bulk_release sim_driver [LUserdata 1%nat] output_group_world) in
  let w2 := snd (bulk_release sim_driver [LUserdata 1%nat] w1) in
  dstate w1 <> dstate output_group_world
  /\ heap w2 = heap w1
  /\ dstate w2 = dstate w1
  /\ calls_between w1 w2 [logged (gpiod_line_release_bulk [0; 1]%nat)].
Proof. split; [discriminate|]. split; [reflexivity|]. split; reflexivity. Qed.

Lemma chip_iter_next_is_next_noclose_witness :
  is_iter iter_world 0%nat {| iter_iter := Some 0%nat |}
  /\ chip_iter_next sim_driver [LUserdata 0%nat] iter_world
     = chip_iter_next_noclose sim_driver [LUserdata 0%nat] iter_world.
Proof.
  split; [reflexivity|].
  apply (chip_iter_next_is_next_noclose sim_driver iter_world 0%nat
           {| iter_iter := Some 0%nat |} [] eq_refl).
Defined.

(** C4 fails as stated: closing the enumerator closes no controller
    that [next_noclose] yielded.  The handle yielded keeps its
    descriptor, the only driver call of the close is the release of the
    iterator, and the controller still answers: [name] returns its name
    where a closed controller raises "Chip is closed". *)
Lemma chip_iter_close_leaves_yielded_open :
  fst (chip_iter_next_noclose sim_driver [LUserdata 0%nat] iter_world) = Ok [LUserdata 1%nat]
  /\ is_iter yielded_world 0%nat {| iter_iter := Some 0%nat |}
  /\ is_chip yielded_world 1%nat {| chip_chip := Some 0%nat |}
  /\ fst (chip_iter_close sim_driver [LUserdata 0%nat] yielded_world) = Ok []
  /\ calls_between yielded_world
       (snd (chip_iter_close sim_driver [LUserdata 0%nat] yielded_world))
       [logged (gpiod_chip_iter_free_noclose 0%nat)]
  /\ is_chip (snd (chip_iter_close sim_driver [LUserdata 0%nat] yielded_world)) 1%nat
       {| chip_chip := Some 0%nat |}
  /\ fst (chip_name sim_driver [LUserdata 1%nat]
            (snd (chip_iter_close sim_driver [LUserdata 0%nat] yielded_world)))
     = Ok [LString "gpiochip0"]
  /\ fst (chip_name sim_driver [LUserdata 1%nat]
            (snd (chip_iter_close sim_driver [LUserdata 0%nat] yielded_world)))
     <> Raise ClosedResource.
Proof.
  split; [reflexivity|]. split; [reflexivity|]. split; [reflexivity|].
  split; [reflexivity|]. split; [reflexivity|]. split; [reflexivity|].
  split; [reflexivity|]. discriminate.
Qed.

Lemma chip_iter_close_then_empty_witness :
  is_iter yielded_world 0%nat {| iter_iter := Some 0%nat |}
  /\ is_chip yielded_world 1%nat {| chip_chip := Some 0%nat |}
  /\ exists w1,
       chip_iter_close sim_driver [LUserdata 0%nat] yielded_world = (Ok [], w1)
       /\ calls_between yielded_world w1 [logged (gpiod_chip_iter_free_noclose 0%nat)]
       /\ is_iter w1 0%nat {| iter_iter := None |}
       /\ is_chip w1 1%nat {| chip_chip := Some 0%nat |}
       /\ chip_iter_close sim_driver [LUserdata 0%nat] w1 = (Ok [], w1)
       /\ chip_iter_next sim_driver [LUserdata 0%nat] w1 = (Ok [LNil], w1).
Proof.
  split; [reflexivity|]. split; [reflexivity|].
  pose proof (chip_iter_close_then_empty sim_driver yielded_world
                0%nat {| iter_iter := Some 0%nat |} eq_refl)
    as [Hrun [Hiter [Hchips [_ [Hagain Hnext]]]]].
  eexists. split; [exact Hrun|]. split; [reflexivity|]. split; [exact Hiter|].
  split; [apply Hchips; reflexivity|]. split; [exact Hagain|]. exact (Hnext 0%nat).
Defined.

Lemma chip_open_empty_identifier_witness :
  sim_driver _ (gpiod_chip_open_by_name "") (dstate boot) = (None, host)
  /\ sim_driver _ (gpiod_chip_open_by_number 0) host = (Some 0%nat, host)
  /\ chip_open sim_driver [LString ""] boot =
     (Ok [LUserdata 0%nat],
      World [{| payload := UChip {| chip_chip := Some 0%nat |};
                metatable := Some GPIOD_CHIP_MT |}]
            host
            [logged (gpiod_chip_open_by_name ""); logged (gpiod_chip_open_by_number 0)]).
Proof.
  split; [reflexivity|]. split; [reflexivity|].
  apply (chip_open_empty_identifier sim_driver boot 0%nat host host eq_refl eq_refl).
Defined.

(** ** Runs *)

(** A group of the offsets 0, 1, 2 requested as input on the simulated
    host reads as three zeros, in order. *)
Example get_values_three_lines :
  fst (bulk_get_values sim_driver [LUserdata 1%nat] input_group_world)
  = Ok [LTable [LInteger 0; LInteger 0; LInteger 0]].
Proof. reflexivity. Qed.

(** Output with default 0 on line 2, [set_value(1)], [get_value()],
    [release()], [get_value()]. *)
Example set_get_release_get :
  fst (run [line_set_value sim_driver [LUserdata 1%nat; LInteger 1];
            line_get_value sim_driver [LUserdata 1%nat];
            line_release sim_driver [LUserdata 1%nat];
            line_get_value sim_driver [LUserdata 1%nat]] line_world)
  = [Ok [LBoolean true]; Ok [LInteger 1]; Ok []; Raise ReleasedResource].
Proof. reflexivity. Qed.

(** A name that no controller has is an error; a number is retried as
    an index. *)
Example chip_open_unknown :
  fst (chip_open sim_driver [LString "gpiochip7"] boot) = Raise (DeviceNotFound "gpiochip7").
Proof. reflexivity. Qed.

Example chip_open_by_index :
  fst (chip_open sim_driver [LString "0"] boot) = Ok [LUserdata 0%nat].
Proof. reflexivity. Qed.

(** Identifiers that [strtoul] accepts although they are not plain
    unsigned integers: a sign, leading white space, and a number past
    the range of [unsigned int], which wraps to controller 0. *)
Example strtoul_lenient :
  strtoul "-1" = (ULONG_MAX, EmptyString)
  /\ strtoul " 7" = (7, EmptyString)
  /\ strtoul "+7" = (7, EmptyString)
  /\ c_uint (fst (strtoul "4294967296")) = 0.
Proof. repeat split. Qed.

Example chip_open_wraps :
  chip_open sim_driver [LString "4294967296"] boot
  = (Ok [LUserdata 0%nat],
     World [{| payload := UChip {| chip_chip := Some 0%nat |};
               metatable := Some GPIOD_CHIP_MT |}]
           host
           [logged (gpiod_chip_open_by_name "4294967296");
            logged (gpiod_chip_open_by_number 0)]).
Proof. reflexivity. Qed.

(** With no edge pending, a wait of half a second reports false. *)
Example event_wait_times_out :
  fst (line_event_wait sim_driver [LUserdata 1%nat; LNumber 0.5] line_world)
  = Ok [LBoolean false].
Proof. reflexivity. Qed.

(** One and a half seconds as a [timespec]. *)
Example timespec_of_1_5 :
  timespec_of_seconds 1.5 = {| tv_sec := 1; tv_nsec := 500000000 |}.
Proof. reflexivity. Qed.

(** ** Timeouts *)



(** What the argument may be: a string that reads as a number is a
    timeout like the number. *)
Example event_wait_numeral :
  line_event_wait sim_driver [LUserdata 1%nat; LString "0.5"] line_world
  = line_event_wait sim_driver [LUserdata 1%nat; LNumber 0.5] line_world.
Proof. reflexivity. Qed.

(** ** Arguments that Lua converts *)

(** A number is accepted where the identifier of a controller is
    wanted: the integer 0 is the text "0", which opens controller 0 by
    number; the float 0 is the text "0.0", which opens nothing. *)
Example chip_open_number :
  chip_open sim_driver [LInteger 0] boot = chip_open sim_driver [LString "0"] boot
  /\ fst (chip_open sim_driver [LInteger 0] boot) = Ok [LUserdata 0%nat]
  /\ fst (chip_open sim_driver [LNumber 0] boot) = Raise (DeviceNotFound "0.0").
Proof. split; [reflexivity|]. split; reflexivity. Qed.

(** A string that reads as an integer is accepted where an integer is
    wanted, in a table as well; a float with a fraction is not. *)
Example set_values_numeral :
  fst (bulk_set_values sim_driver
         [LUserdata 1%nat; LTable [LInteger 1; LString "1"]] output_group_world)
  = Ok [LBoolean true]
  /\ calls_between output_group_world
       (snd (bulk_set_values sim_driver
               [LUserdata 1%nat; LTable [LInteger 1; LString " 0x1 "]] output_group_world))
       [logged (gpiod_line_set_value_bulk [0; 1]%nat [1; 1])]
  /\ bulk_set_values sim_driver
       [LUserdata 1%nat; LTable [LInteger 1; LNumber 1.5]] output_group_world
     = (Raise (ArgError (-1) "number has no integer representation"), output_group_world).
Proof. split; [reflexivity|]. split; reflexivity. Qed.

(** A nil at the end of a table is not part of it: [get_lines] on the
    table of 0 and nil makes a group of one line. *)
Example get_lines_trailing_nil :
  lua_rawlen [LInteger 0; LNil] = 1
  /\ calls_between chip_world
       (snd (chip_get_lines sim_driver [LUserdata 0%nat; LTable [LInteger 0; LNil]] chip_world))
       [logged (gpiod_chip_get_lines 0%nat [0])].
Proof. split; reflexivity. Qed.

(** The numerals of the reference Lua, and how it prints a float. *)
Example numerals :
  LuaLib.luaO_str2num "10" = Some (NInt 10)
  /\ LuaLib.luaO_str2num " -0x10 " = Some (NInt (-16))
  /\ LuaLib.luaO_str2num "1e2" = Some (NFlt 100)
  /\ LuaLib.luaO_str2num "0x.8p1" = Some (NFlt 1)
  /\ LuaLib.luaO_str2num "9223372036854775808" = Some (NFlt 9223372036854775808)
  /\ LuaLib.luaO_str2num "" = None
  /\ LuaLib.luaO_str2num "0x" = None
  /\ LuaLib.luaO_str2num "1e" = None
  /\ LuaLib.luaO_str2num "inf" = None
  /\ LuaLib.luaO_str2num "12 volts" = None.
Proof. repeat split. Qed.

Example floats_as_text :
  map LuaLib.lua_Number2str [1.5; 100; 1e15; 0.5; -0.25; 1e22; infinity]%float
  = ["1.5"; "100.0"; "1e+15"; "0.5"; "-0.25"; "1e+22"; "inf"]%string.
Proof. reflexivity. Qed.

(** * More instances on the simulated host *)

Import Tour.

Lemma wrong_userdata_refused_witness :
  heap line_world !! 1%nat
  = Some {| payload := ULine {| line_line := Some 2%nat; line_chip := Some 0%nat |};
            metatable := Some GPIOD_LINE_MT |}
  /\ forall m, chip_methods sim_driver m 1%nat line_world
               = (Raise (ArgError 1 GPIOD_CHIP_MT), line_world).
Proof.
  split; [reflexivity|].
  apply (proj1 (wrong_userdata_refused sim_driver constants line_world 1%nat _ eq_refl)).
  discriminate.
Defined.

Lemma bulk_get_line_bounds_witness :
  is_bulk group_world 1%nat {| bulk_bulk := [0; 1]%nat; bulk_chip := Some 0%nat |}
  /\ bulk_get_line [LUserdata 1%nat; LInteger (-1)] group_world
     = (Raise (LuaError "Index out of range" []), group_world).
Proof.
  split; [reflexivity|].
  apply (proj1 (proj2 (bulk_get_line_bounds group_world 1%nat
                         {| bulk_bulk := [0; 1]%nat; bulk_chip := Some 0%nat |} (-1)
                         eq_refl))).
  right. cbn. lia.
Defined.

Lemma chip_get_line_result_witness :
  is_chip chip_world 0%nat {| chip_chip := Some 0%nat |}
  /\ calls_between chip_world
       (snd (chip_get_line sim_driver [LUserdata 0%nat; LInteger 9] chip_world))
       [logged (gpiod_chip_get_line 0%nat 9)].
Proof.
  split; [reflexivity|].
  apply (proj1 (chip_get_line_result sim_driver chip_world 0%nat 0%nat 9 eq_refl)).
Defined.

Lemma chip_find_line_result_witness :
  is_chip chip_world 0%nat {| chip_chip := Some 0%nat |}
  /\ calls_between chip_world
       (snd (chip_find_line sim_driver [LUserdata 0%nat; LString "led"] chip_world))
       [logged (gpiod_chip_find_line 0%nat "led")].
Proof.
  split; [reflexivity|].
  apply (proj1 (chip_find_line_result sim_driver chip_world 0%nat 0%nat "led" eq_refl)).
Defined.

Lemma chip_get_lines_forwards_witness :
  is_chip chip_world 0%nat {| chip_chip := Some 0%nat |}
  /\ lua_rawlen [LInteger 2; LNumber 1; LString "2"] < 2 ^ 31
  /\ Forall2 (fun v z => lua_tointegerx v = Some z)
       (take (Z.to_nat (lua_rawlen [LInteger 2; LNumber 1; LString "2"]))
             [LInteger 2; LNumber 1; LString "2"])
       [2; 1; 2]
  /\ chip_get_lines sim_driver [LUserdata 0%nat; LTable [LInteger 2; LNumber 1; LString "2"]]
       chip_world
     = (Ok [LUserdata 1%nat],
        World (heap chip_world ++
               [{| payload := UBulk {| bulk_bulk := [2; 1; 2]%nat; bulk_chip := Some 0%nat |};
                   metatable := Some GPIOD_LINE_BULK_MT |}])
              host
              (trace chip_world ++ [logged (gpiod_chip_get_lines 0%nat [2; 1; 2])])).
Proof.
  assert (Hconv : Forall2 (fun v z => lua_tointegerx v = Some z)
                    (take (Z.to_nat (lua_rawlen [LInteger 2; LNumber 1; LString "2"]))
                          [LInteger 2; LNumber 1; LString "2"])
                    [2; 1; 2])
    by (repeat constructor).
  assert (Hlen : lua_rawlen [LInteger 2; LNumber 1; LString "2"] < 2 ^ 31) by reflexivity.
  split; [reflexivity|]. split; [exact Hlen|]. split; [exact Hconv|].
  apply (proj1 (chip_get_lines_forwards sim_driver chip_world 0%nat 0%nat
                  [LInteger 2; LNumber 1; LString "2"] eq_refl Hlen) [2; 1; 2] Hconv).
Defined.

Lemma bulk_tables_need_integers_witness :
  is_bulk group_world 1%nat {| bulk_bulk := [0; 1]%nat; bulk_chip := Some 0%nat |}
  /\ lua_tointegerx (LInteger 1) = Some 1
  /\ lua_tointegerx (LString "x") = None
  /\ bulk_set_values sim_driver [LUserdata 1%nat; LTable [LInteger 1; LString "x"]] group_world
     = (Raise (ArgError (-1) "number expected"), group_world).
Proof.
  split; [reflexivity|]. split; [reflexivity|]. split; [reflexivity|].
  assert (Hi : (1 < 2)%nat) by lia.
  assert (Hgood : forall j, (j < 1)%nat ->
            lua_tointegerx (default LNil ([LInteger 1; LString "x"] !! j)) <> None).
  { intros [|j] Hj; [discriminate|lia]. }
  apply (proj1 (bulk_tables_need_integers sim_driver group_world 1%nat
                  {| bulk_bulk := [0; 1]%nat; bulk_chip := Some 0%nat |}
                  [LInteger 1; LString "x"] 1%nat eq_refl Hi Hgood eq_refl)).
Defined.


Lemma line_status_from_driver_witness :
  is_line line_world 1%nat {| line_line := Some 2%nat; line_chip := Some 0%nat |}
  /\ fst (line_methods sim_driver constants (Line_set_value 1) 1%nat line_world)
     = Ok [LBoolean true].
Proof.
  split; [reflexivity|].
  apply (proj2 (proj2 (line_status_from_driver sim_driver constants line_world 1%nat 2%nat
                         (Some 0%nat) (Line_set_value 1) (gpiod_line_set_value 2%nat 1)
                         eq_refl eq_refl))).
  vm_compute. discriminate.
Defined.


Lemma close_and_release_touch_only_self_witness :
  is_line derived_world 1%nat {| line_line := Some 2%nat; line_chip := Some 0%nat |}
  /\ heap derived_world !! 3%nat
     = Some {| payload := ULine {| line_line := Some 2%nat; line_chip := Some 0%nat |};
               metatable := Some GPIOD_LINE_MT |}
  /\ heap (snd (line_release sim_driver [LUserdata 1%nat] derived_world)) !! 3%nat
     = Some {| payload := ULine {| line_line := Some 2%nat; line_chip := Some 0%nat |};
               metatable := Some GPIOD_LINE_MT |}.
Proof.
  split; [reflexivity|]. split; [reflexivity|].
  assert (Hne : 3%nat <> 1%nat) by discriminate.
  apply (proj1 (proj2 (close_and_release_touch_only_self sim_driver derived_world 1%nat 3%nat
                         {| payload := ULine {| line_line := Some 2%nat;
                                                line_chip := Some 0%nat |};
                            metatable := Some GPIOD_LINE_MT |}
                         eq_refl Hne))
           {| line_line := Some 2%nat; line_chip := Some 0%nat |} eq_refl).
Defined.

Lemma line_outlives_closed_chip_witness :
  is_chip chip_world 0%nat {| chip_chip := Some 0%nat |}
  /\ sim_driver _ (gpiod_chip_get_line 0%nat (c_uint 2)) (dstate chip_world) = (Some 2%nat, host)
  /\ calls_between
       (snd (chip_close sim_driver [LUserdata 0%nat]
               (snd (chip_get_line sim_driver [LUserdata 0%nat; LInteger 2] chip_world))))
       (snd (line_get_value sim_driver [LUserdata 1%nat]
               (snd (chip_close sim_driver [LUserdata 0%nat]
                       (snd (chip_get_line sim_driver [LUserdata 0%nat; LInteger 2]
                               chip_world))))))
       [logged (gpiod_line_get_value 2%nat)].
Proof.
  split; [reflexivity|]. split; [reflexivity|].
  apply (proj1 (proj2 (proj2 (proj2 (proj2
           (line_outlives_closed_chip sim_driver chip_world 0%nat 0%nat 2 2%nat host
              eq_refl eq_refl)))))).
Defined.



Lemma event_read_then_inspect_witness :
  is_line EventSim.armed_world 1%nat {| line_line := Some 2%nat; line_chip := Some 0%nat |}
  /\ EventSim.event_driver _ (gpiod_line_event_read 2%nat) (dstate EventSim.armed_world)
     = (0, EventSim.rising_at 12 500000000, (fst (dstate EventSim.armed_world), []))
  /\ fst (line_event_read EventSim.event_driver [LUserdata 1%nat] EventSim.armed_world)
     = Ok [LUserdata 2%nat].
Proof.
  split; [reflexivity|]. split; [reflexivity|].
  assert (H0 : 0 <= 0) by lia.
  apply (proj1 (proj2 (proj2
           (event_read_then_inspect EventSim.event_driver constants EventSim.armed_world
              1%nat 2%nat (Some 0%nat) 0 (EventSim.rising_at 12 500000000)
              (fst (dstate EventSim.armed_world), []) eq_refl eq_refl)) H0)).
Defined.


Lemma chip_get_all_lines_then_count_witness :
  is_chip chip_world 0%nat {| chip_chip := Some 0%nat |}
  /\ sim_driver _ (gpiod_chip_get_all_lines 0%nat) (dstate chip_world)
     = (0, [0; 1; 2; 3]%nat, host)
  /\ bulk_num_lines [LUserdata 1%nat]
       (snd (chip_get_all_lines sim_driver [LUserdata 0%nat] chip_world))
     = (Ok [LInteger 4], snd (chip_get_all_lines sim_driver [LUserdata 0%nat] chip_world)).
Proof.
  split; [reflexivity|]. split; [reflexivity|].
  assert (H0 : 0 <= 0) by lia.
  apply (proj2 (proj2 (proj2 (proj2
           (chip_get_all_lines_then_count sim_driver chip_world 0%nat 0%nat 0
              [0; 1; 2; 3]%nat host eq_refl eq_refl)) H0))).
Defined.


(** ** Runs with edge events *)

(** With one rising edge pending: a wait reports it and leaves it in
    place, so a second wait reports it again; a read takes it; the next
    wait times out.  The event read is a rising edge at 12.5 s. *)
Example wait_read_wait :
  (fst (line_event_wait EventSim.event_driver [LUserdata 1%nat; LNumber 0]
          EventSim.armed_world),
   fst (line_event_wait EventSim.event_driver [LUserdata 1%nat; LNumber 0]
          (snd (line_event_wait EventSim.event_driver [LUserdata 1%nat; LNumber 0]
                  EventSim.armed_world))))
  = (Ok [LBoolean true], Ok [LBoolean true])
  /\ (let w1 := snd (line_event_read EventSim.event_driver [LUserdata 1%nat]
                       EventSim.armed_world) in
      event_event_type constants [LUserdata 2%nat] w1 = (Ok [LString "rising_edge"], w1)
      /\ event_timestamp [LUserdata 2%nat] w1 = (Ok [LNumber 12.5], w1)
      /\ fst (line_event_wait EventSim.event_driver [LUserdata 1%nat; LNumber 0] w1)
         = Ok [LBoolean false]
      /\ fst (line_event_read EventSim.event_driver [LUserdata 1%nat] w1)
         = Raise (LuaError "Failed to read event" [])).
Proof. split; [reflexivity|]. repeat split. Qed.
